(** * Room-heights compliance checker: a shallow embedding

    Source: [src/tools/checker_room_heights.py], function
    [check_room_heights(model, **kwargs)].

    The Python builtins the checker relies on ([str], [repr], [str.lower],
    [in] on strings, [dict.get], [isinstance], [>=], the ['.0f'] format) are
    modelled in module [Py]; the IFC model and the checker itself follow.

    Modelling scope.
    - A Python [str] is a Rocq [string] whose characters are the code points
      U+0000..U+00FF; [lower] and [repr] are exact on that range.
    - A Python [int] is a [Z]; int-to-text conversion is modelled without the
      interpreter's digit limit (4300 digits by default, ValueError beyond),
      and [repr] without the interpreter's recursion limit. The statements on
      when a call returns or what it raises therefore assume [printable]:
      ints of at most 4300 digits in values nested at most one level deep.
    - A Python [float] is an abstract type (class [PyFloat]): the checker only
      prints, formats and compares floats, and every theorem holds for any
      implementation of these operations.
    - A [dict] is an association list in insertion order. *)

From Stdlib Require Import ZArith List Bool Ascii String Lia.
From Stdlib Require Import Numbers.DecimalString.
From Stdlib Require Import Sorting.Permutation.
Import ListNotations.

Set Warnings "-register-all".

Local Open Scope list_scope.
Local Open Scope string_scope.

(** ** Exceptions and the result of a call *)

Inductive exn : Type := TypeError | OverflowError.

Inductive outcome (A : Type) : Type :=
| Return (a : A)
| Raise (e : exn).

Arguments Return {A} a.
Arguments Raise {A} e.

Definition obind {A B : Type} (c : outcome A) (k : A -> outcome B) : outcome B :=
  match c with
  | Return a => k a
  | Raise e => Raise e
  end.

Declare Scope outcome_scope.
Delimit Scope outcome_scope with outcome.
Notation "x <- c ;; k" := (obind c (fun x => k))
  (at level 61, c at next level, right associativity) : outcome_scope.

(** ** Python builtins *)

Module Py.

(** *** Strings *)

(** [c.lower()] for a code point below 256: A-Z and the Latin-1 capitals
    U+00C0..U+00DE (the multiplication sign U+00D7 excepted) move up by 32. *)
Definition lower_char (c : ascii) : ascii :=
  let n := N_of_ascii c in
  if ((65 <=? n) && (n <=? 90))%N
     || ((192 <=? n) && (n <=? 222) && negb (n =? 215))%N
  then ascii_of_N (n + 32)
  else c.

Fixpoint lower (s : string) : string :=
  match s with
  | EmptyString => EmptyString
  | String c t => String (lower_char c) (lower t)
  end.

(** [needle in hay] on strings. *)
Fixpoint contains (needle hay : string) : bool :=
  String.prefix needle hay
  || match hay with
     | EmptyString => false
     | String _ t => contains needle t
     end.

Definition squote : ascii := "'"%char.
Definition dquote : ascii := "034"%char.
Definition backslash : ascii := "\"%char.

Fixpoint has_char (c : ascii) (s : string) : bool :=
  match s with
  | EmptyString => false
  | String d t => Ascii.eqb c d || has_char c t
  end.

Definition hex_digit (n : N) : ascii :=
  if (n <? 10)%N then ascii_of_N (48 + n) else ascii_of_N (87 + n).

(** One character of [repr(s)], [q] being the quote chosen for [s]. *)
Definition repr_char (q c : ascii) : string :=
  let n := N_of_ascii c in
  if Ascii.eqb c q || Ascii.eqb c backslash then String backslash (String c "")
  else if (n =? 9)%N then String backslash "t"
  else if (n =? 10)%N then String backslash "n"
  else if (n =? 13)%N then String backslash "r"
  else if ((n <? 32) || ((127 <=? n) && (n <=? 160)) || (n =? 173))%N
  then String backslash
         (String "x" (String (hex_digit (n / 16)) (String (hex_digit (n mod 16)) "")))
  else String c "".

Fixpoint repr_chars (q : ascii) (s : string) : string :=
  match s with
  | EmptyString => EmptyString
  | String c t => repr_char q c ++ repr_chars q t
  end.

(** [repr(s)] for a string: double quotes only when the text holds a single
    quote and no double quote. *)
Definition str_repr (s : string) : string :=
  let q := if has_char squote s && negb (has_char dquote s) then dquote else squote in
  String q (repr_chars q s ++ String q "").

(** *** Integers *)

(** [str(z)] for an int. *)
Definition int_str (z : Z) : string := NilZero.string_of_int (Z.to_int z).

(** The nearest binary64 value of a natural number, ties to even, as an
    exact integer (the conversion [float(n)] performs). *)
Definition round_double (n : Z) : Z :=
  let bits := (Z.log2 n + 1)%Z in
  if (bits <=? 53)%Z then n
  else
    let k := (bits - 53)%Z in
    let q := Z.shiftr n k in
    let r := (n - Z.shiftl q k)%Z in
    let half := Z.shiftl 1 (k - 1) in
    let q' := if (half <? r)%Z || ((r =? half)%Z && Z.odd q) then (q + 1)%Z else q in
    Z.shiftl q' k.

(** [format(z, '.0f')] for an int: the int is converted to a float first,
    which raises OverflowError from 2^1024 - 2^970 on. *)
Definition int_fmt0f (z : Z) : outcome string :=
  let r := round_double (Z.abs z) in
  if (2 ^ 1024 <=? r)%Z then Raise OverflowError
  else Return ((if (z <? 0)%Z then "-" else "") ++ int_str r).

(** *** Floats, values *)

Class PyFloat : Type := {
  pyfloat : Type;
  (** [repr(x)], which is also [str(x)] *)
  float_repr : pyfloat -> string;
  (** [format(x, '.0f')] *)
  float_fmt0f : pyfloat -> string;
  (** [x >= y] on float/float, float/int and int/float *)
  float_ge : pyfloat -> pyfloat -> bool;
  float_ge_int : pyfloat -> Z -> bool;
  int_ge_float : Z -> pyfloat -> bool
}.

Section Values.
Context {F : PyFloat}.

Inductive pyval : Type :=
| PNone
| PBool (b : bool)
| PInt (z : Z)
| PFloat (x : pyfloat)
| PStr (s : string)
| PList (l : list pyval)
| PDict (d : list (string * pyval)).

Definition dict : Type := list (string * pyval).

(** [repr(v)] *)
Fixpoint repr (v : pyval) : string :=
  match v with
  | PNone => "None"
  | PBool b => if b then "True" else "False"
  | PInt z => int_str z
  | PFloat x => float_repr x
  | PStr s => str_repr s
  | PList l => "[" ++ String.concat ", " (map repr l) ++ "]"
  | PDict d =>
      "{" ++ String.concat ", "
               (map (fun kv => str_repr (fst kv) ++ ": " ++ repr (snd kv)) d)
          ++ "}"
  end.

(** [str(v)], also what an f-string field [{v}] produces. *)
Definition str (v : pyval) : string :=
  match v with
  | PStr s => s
  | _ => repr v
  end.

(** [d.get(k, default)] *)
Fixpoint dict_get (d : dict) (k : string) (default : pyval) : pyval :=
  match d with
  | [] => default
  | (k', v) :: t => if String.eqb k k' then v else dict_get t k default
  end.

(** A value for which [isinstance(v, (int, float))] holds, seen as a number:
    [bool] is a subclass of [int], [True] being 1 and [False] 0. *)
Inductive pynum : Type :=
| NumInt (z : Z)
| NumFloat (x : pyfloat).

Definition as_number (v : pyval) : option pynum :=
  match v with
  | PBool b => Some (NumInt (Z.b2z b))
  | PInt z => Some (NumInt z)
  | PFloat x => Some (NumFloat x)
  | _ => None
  end.

Definition num_ge (a b : pynum) : bool :=
  match a, b with
  | NumInt x, NumInt y => (y <=? x)%Z
  | NumInt x, NumFloat y => int_ge_float x y
  | NumFloat x, NumInt y => float_ge_int x y
  | NumFloat x, NumFloat y => float_ge x y
  end.

(** [a >= v] for a number [a]: TypeError unless [v] is a number too. *)
Definition ge (a : pynum) (v : pyval) : outcome bool :=
  match as_number v with
  | Some b => Return (num_ge a b)
  | None => Raise TypeError
  end.

(** [format(a, '.0f')] *)
Definition fmt0f (a : pynum) : outcome string :=
  match a with
  | NumInt z => int_fmt0f z
  | NumFloat x => Return (float_fmt0f x)
  end.

End Values.

(** The float-free fragment: an implementation of [PyFloat] with no float
    at all, for evaluating the checker on integer and text data. *)
Definition no_float : PyFloat := {|
  pyfloat := Empty_set;
  float_repr := fun x => match x with end;
  float_fmt0f := fun x => match x with end;
  float_ge := fun x _ => match x with end;
  float_ge_int := fun x _ => match x with end;
  int_ge_float := fun _ y => match y with end
|}.

End Py.

Import Py.

(** ** The IFC model

    What the checker reads from [ifcopenshell]: the entities
    [model.by_type] yields, their attributes, and the property groups
    [ifcopenshell.util.element.get_psets] resolves for a space. *)

Section Checker.
Context {F : PyFloat}.

Record IfcSpace : Type := {
  (** [space.id()], the STEP handle *)
  space_step_id : Z;
  GlobalId : option string;
  Name : option string;
  LongName : option string;
  (** [get_psets(space)]: group name to properties, in dict order *)
  get_psets : list (string * dict)
}.

Record IfcBuildingStorey : Type := {
  storey_step_id : Z;
  Elevation : option pyval
}.

Record ifc_file : Type := {
  spaces_of : list IfcSpace;
  storeys_of : list IfcBuildingStorey
}.

(** A call runs against the model it is handed: it may raise, and it leaves
    a model behind. *)
Definition M (A : Type) : Type := ifc_file -> outcome A * ifc_file.

Definition ret {A : Type} (a : A) : M A := fun m => (Return a, m).

Definition bind {A B : Type} (c : M A) (k : A -> M B) : M B :=
  fun m =>
    match c m with
    | (Return a, m') => k a m'
    | (Raise e, m') => (Raise e, m')
    end.

Definition lift {A : Type} (o : outcome A) : M A := fun m => (o, m).

(** [model.by_type("IfcSpace")] and [model.by_type("IfcBuildingStorey")] *)
Definition by_type_IfcSpace : M (list IfcSpace) :=
  fun m => (Return (spaces_of m), m).

Definition by_type_IfcBuildingStorey : M (list IfcBuildingStorey) :=
  fun m => (Return (storeys_of m), m).

(** ** Result records *)

Record result_dict : Type := {
  element_id : option string;
  element_type : string;
  element_name : string;
  element_name_long : option string;
  check_status : string;
  actual_value : string;
  required_value : string;
  comment : option string;
  log : option string
}.

(** ** The checker *)

(** Lines 54-60: the storey elevation index, keyed by [storey.id()]. *)
Fixpoint set_elevation (index : list (Z * pyval)) (k : Z) (v : pyval)
  : list (Z * pyval) :=
  match index with
  | [] => [(k, v)]
  | (k', v') :: t =>
      if (k =? k')%Z then (k, v) :: t else (k', v') :: set_elevation t k v
  end.

Definition build_storey_elevations (storeys : list IfcBuildingStorey)
  : list (Z * pyval) :=
  fold_left
    (fun storey_elevations storey =>
       match Elevation storey with
       | Some elevation => set_elevation storey_elevations (storey_step_id storey) elevation
       | None => storey_elevations
       end)
    storeys [].

(** Lines 84-87: the first key of a group that contains "height" and holds
    an int or a float is assigned to [height_value], and the scan of that
    group ends; a group without such a key leaves [height_value] as it was. *)
Fixpoint scan_properties (properties : dict) (height_value : option pynum)
  : option pynum :=
  match properties with
  | [] => height_value
  | (prop_name, prop_value) :: rest =>
      if contains "height" (lower prop_name) then
        match as_number prop_value with
        | Some n => Some n
        | None => scan_properties rest height_value
        end
      else scan_properties rest height_value
  end.

(** Lines 81-87: the loop over the groups. The [break] of line 87 leaves the
    inner loop only, so every group is visited. *)
Fixpoint discover_height (psets : list (string * dict)) (height_value : option pynum)
  : option pynum :=
  match psets with
  | [] => height_value
  | (pset_name, properties) :: rest =>
      if contains "height" (lower (str (PDict properties)))
      then discover_height rest (scan_properties properties height_value)
      else discover_height rest height_value
  end.

(** Lines 94-99: the loop ends at the first group whose text mentions
    "residential" or "dwelling". *)
Fixpoint psets_residential (psets : list (string * dict)) : bool :=
  match psets with
  | [] => false
  | (pset_name, properties) :: rest =>
      let props_str := lower (str (PDict properties)) in
      if contains "residential" props_str || contains "dwelling" props_str
      then true
      else psets_residential rest
  end.

Definition residential_terms : list string :=
  ["residential"; "dwelling"; "apartment"; "bedroom"; "family"].

(** Lines 90-105: [is_residential]; [use_type] is set along with it. *)
Definition classify (psets : list (string * dict)) (space_name : string) : bool :=
  let is_residential :=
    match psets with
    | [] => false
    | _ => psets_residential psets
    end in
  if negb is_residential && negb (space_name =? "") then
    let name_lower := lower space_name in
    existsb (fun term => contains term name_lower) residential_terms
  else is_residential.

Definition use_type_of (is_residential : bool) : string :=
  if is_residential then "Residential" else "Commercial".

(** Line 69: [getattr(space, "Name", None) or f"Space #{space.id()}"] *)
Definition space_name_of (space : IfcSpace) : string :=
  let label := "Space #" ++ int_str (space_step_id space) in
  match Name space with
  | Some n => if n =? "" then label else n
  | None => label
  end.

(** The local state of the loop of lines 67-141. *)
Record loop_state : Type := {
  results : list result_dict;
  passed_count : nat;
  failed_count : nat;
  warning_count : nat
}.

Local Open Scope outcome_scope.

(** Lines 68-141: the body of the loop, for one space. [explicit_height]
    (line 73) and [height_found_in_properties] (lines 77, 83) are written
    and never read; they are left out. *)
Definition check_space (RESIDENTIAL_MIN_HEIGHT COMMERCIAL_MIN_HEIGHT : pyval)
    (space : IfcSpace) (st : loop_state) : outcome loop_state :=
  let space_id := GlobalId space in
  let space_name := space_name_of space in
  let space_long_name := LongName space in
  let psets := get_psets space in
  let height_value := discover_height psets None in
  let is_residential := classify psets space_name in
  let use_type := use_type_of is_residential in
  let required_height :=
    if is_residential then RESIDENTIAL_MIN_HEIGHT else COMMERCIAL_MIN_HEIGHT in
  verdict <-
    match height_value with
    | Some h =>
        is_ge <- ge h required_height ;;
        shown <- fmt0f h ;;
        if is_ge then
          Return ("pass", shown ++ "mm", None,
                  S (passed_count st), failed_count st, warning_count st)
        else
          shown' <- fmt0f h ;;
          Return ("fail", shown ++ "mm",
                  Some ("Space height " ++ shown' ++ "mm is below required minimum "
                          ++ str required_height ++ "mm for " ++ use_type),
                  passed_count st, S (failed_count st), warning_count st)
    | None =>
        Return ("warning", "Height not specified",
                Some "No explicit height property found for space. Cannot verify compliance.",
                passed_count st, failed_count st, S (warning_count st))
    end ;;
  let '(status, actual, note, passed, failed, warned) := verdict in
  let result_dict := {|
    element_id := space_id;
    element_type := "IfcSpace";
    element_name := space_name;
    element_name_long := space_long_name;
    check_status := status;
    actual_value := actual;
    required_value := ">= " ++ str required_height ++ "mm (" ++ use_type ++ ")";
    comment := note;
    log := Some ("use_type=" ++ use_type ++ ", properties_checked=True")
  |} in
  Return {| results := (results st ++ [result_dict])%list;
            passed_count := passed;
            failed_count := failed;
            warning_count := warned |}.

(** Lines 67-141: the loop. *)
Fixpoint check_spaces (RESIDENTIAL_MIN_HEIGHT COMMERCIAL_MIN_HEIGHT : pyval)
    (spaces : list IfcSpace) (st : loop_state) : outcome loop_state :=
  match spaces with
  | [] => Return st
  | space :: rest =>
      st' <- check_space RESIDENTIAL_MIN_HEIGHT COMMERCIAL_MIN_HEIGHT space st ;;
      check_spaces RESIDENTIAL_MIN_HEIGHT COMMERCIAL_MIN_HEIGHT rest st'
  end.

(** Lines 41-51 *)
Definition no_spaces_record : result_dict := {|
  element_id := None;
  element_type := "Summary";
  element_name := "Room Heights Check";
  element_name_long := None;
  check_status := "log";
  actual_value := "0 spaces found";
  required_value := ">= 1 space";
  comment := Some "No IfcSpace elements found in model";
  log := None
|}.

Definition nat_str (n : nat) : string := int_str (Z.of_nat n).

(** Lines 144-157 *)
Definition summary_record (total_spaces : nat) (st : loop_state) : result_dict :=
  let summary_status := if Nat.eqb (failed_count st) 0 then "pass" else "fail" in
  {|
    element_id := None;
    element_type := "Summary";
    element_name := "Room Heights Check Summary";
    element_name_long := None;
    check_status := summary_status;
    actual_value :=
      nat_str (passed_count st) ++ " pass, " ++ nat_str (failed_count st)
        ++ " fail, " ++ nat_str (warning_count st) ++ " warning";
    required_value :=
      "All " ++ nat_str total_spaces ++ " spaces meet minimum height requirements";
    comment :=
      Some ("Checked " ++ nat_str total_spaces ++ " space(s): "
              ++ nat_str (passed_count st) ++ " compliant, "
              ++ nat_str (failed_count st) ++ " non-compliant, "
              ++ nat_str (warning_count st) ++ " with missing data");
    log := None
  |}.

Declare Scope model_scope.
Delimit Scope model_scope with model.
Notation "x <- c ;; k" := (bind c (fun x => k))
  (at level 61, c at next level, right associativity) : model_scope.

(** Lines 32-34: the thresholds, in millimetres. *)
Definition residential_min (kwargs : dict) : pyval :=
  dict_get kwargs "residential_min_height" (PInt 2700).

Definition commercial_min (kwargs : dict) : pyval :=
  dict_get kwargs "commercial_min_height" (PInt 2800).

Definition sloped_min (kwargs : dict) : pyval :=
  dict_get kwargs "sloped_min_height" (PInt 2100).

(** Lines 18-159 *)
Definition check_room_heights (kwargs : dict) : M (list result_dict) :=
  (let results0 : list result_dict := [] in
   let RESIDENTIAL_MIN_HEIGHT := residential_min kwargs in
   let COMMERCIAL_MIN_HEIGHT := commercial_min kwargs in
   let SLOPED_CEILING_MIN_HEIGHT := sloped_min kwargs in
   spaces <- by_type_IfcSpace ;;
   match spaces with
   | [] => ret (results0 ++ [no_spaces_record])%list
   | _ =>
       storeys <- by_type_IfcBuildingStorey ;;
       let storey_elevations := build_storey_elevations storeys in
       st <- lift (check_spaces RESIDENTIAL_MIN_HEIGHT COMMERCIAL_MIN_HEIGHT spaces
                     {| results := results0; passed_count := 0;
                        failed_count := 0; warning_count := 0 |}) ;;
       let total_spaces := List.length spaces in
       ret (results st ++ [summary_record total_spaces st])%list
   end)%model.

(** The result of a call and the model it leaves. *)
Definition returned (kwargs : dict) (model : ifc_file) : outcome (list result_dict) :=
  fst (check_room_heights kwargs model).

Definition model_after (kwargs : dict) (model : ifc_file) : ifc_file :=
  snd (check_room_heights kwargs model).

(** ** Vocabulary of the statements *)

(** The threshold that applies to a space (line 108). *)
Definition required_height_of (RESIDENTIAL_MIN_HEIGHT COMMERCIAL_MIN_HEIGHT : pyval)
    (space : IfcSpace) : pyval :=
  if classify (get_psets space) (space_name_of space)
  then RESIDENTIAL_MIN_HEIGHT else COMMERCIAL_MIN_HEIGHT.

Definition space_use_type (space : IfcSpace) : string :=
  use_type_of (classify (get_psets space) (space_name_of space)).

(** The comparison and the formatting of the height of [space] do not raise. *)
Definition space_ok (R C : pyval) (space : IfcSpace) : bool :=
  match discover_height (get_psets space) None with
  | None => true
  | Some h =>
      match ge h (required_height_of R C space), fmt0f h with
      | Return _, Return _ => true
      | _, _ => false
      end
  end.

(** Number of records of a given status. *)
Definition count_status (s : string) (rs : list result_dict) : nat :=
  List.length (filter (fun r => check_status r =? s) rs).

(** [r] is the record of [space] under the thresholds [R] and [C]. *)
Definition describes (R C : pyval) (space : IfcSpace) (r : result_dict) : Prop :=
  element_id r = GlobalId space /\
  element_type r = "IfcSpace" /\
  element_name r = space_name_of space /\
  element_name_long r = LongName space /\
  required_value r =
    ">= " ++ str (required_height_of R C space) ++ "mm (" ++ space_use_type space ++ ")" /\
  log r = Some ("use_type=" ++ space_use_type space ++ ", properties_checked=True") /\
  match discover_height (get_psets space) None with
  | Some h =>
      exists shown,
        fmt0f h = Return shown /\
        actual_value r = shown ++ "mm" /\
        ((ge h (required_height_of R C space) = Return true /\
          check_status r = "pass" /\ comment r = None)
         \/
         (ge h (required_height_of R C space) = Return false /\
          check_status r = "fail" /\
          comment r =
            Some ("Space height " ++ shown ++ "mm is below required minimum "
                    ++ str (required_height_of R C space) ++ "mm for "
                    ++ space_use_type space)))
  | None =>
      check_status r = "warning" /\
      actual_value r = "Height not specified" /\
      comment r =
        Some "No explicit height property found for space. Cannot verify compliance."
  end.

(** [st'] is [st] after the record [r] was appended and counted. *)
Definition tallies (st : loop_state) (r : result_dict) (st' : loop_state) : Prop :=
  results st' = (results st ++ [r])%list /\
  passed_count st' = (passed_count st + count_status "pass" [r])%nat /\
  failed_count st' = (failed_count st + count_status "fail" [r])%nat /\
  warning_count st' = (warning_count st + count_status "warning" [r])%nat.

(** A text made of the letters a-z only, as the keywords of the checker. *)
Definition letter (c : ascii) : bool :=
  ((97 <=? N_of_ascii c) && (N_of_ascii c <=? 122))%N.

Fixpoint letters (s : string) : bool :=
  match s with
  | EmptyString => true
  | String c t => letter c && letters t
  end.

(** A key of a property group that can supply the height (line 85). *)
Definition qualifies (kv : string * pyval) : bool :=
  contains "height" (lower (fst kv))
  && match as_number (snd kv) with Some _ => true | None => false end.

(** A property group whose text mentions "height" (line 82), and one whose
    text mentions a residential use (line 96). *)
Definition mentions_height (group : string * dict) : bool :=
  contains "height" (lower (str (PDict (snd group)))).

Definition mentions_residential (group : string * dict) : bool :=
  let props_str := lower (str (PDict (snd group))) in
  contains "residential" props_str || contains "dwelling" props_str.

Definition name_is_residential (space_name : string) : bool :=
  existsb (fun term => contains term (lower space_name)) residential_terms.

(** [d] has no entry for the key [k]. *)
Definition absent (k : string) (d : dict) : Prop :=
  forall v, dict_get d k v = v.

(** Two calls in a row on the same model handle. *)
Definition twice (kwargs : dict) : M (list result_dict * list result_dict) :=
  (r1 <- check_room_heights kwargs ;;
   r2 <- check_room_heights kwargs ;;
   ret (r1, r2))%model.

(** The records of the spaces in a result sequence, and its last record. *)
Definition non_summary (out : list result_dict) : list result_dict :=
  filter (fun r => negb (element_type r =? "Summary")) out.

Definition last_record (out : list result_dict) : result_dict :=
  last out no_spaces_record.

Definition statuses : list string := ["pass"; "fail"; "warning"; "log"].

(** The exception the check of [space] raises, if it raises: the comparison
    of line 113 comes before the formatting of line 114. *)
Definition space_exn (R C : pyval) (space : IfcSpace) : option exn :=
  match discover_height (get_psets space) None with
  | None => None
  | Some h =>
      match ge h (required_height_of R C space) with
      | Raise e => Some e
      | Return _ =>
          match fmt0f h with
          | Raise e => Some e
          | Return _ => None
          end
      end
  end.

(** A space for which a height was discovered. *)
Definition has_height (space : IfcSpace) : bool :=
  match discover_height (get_psets space) None with
  | Some _ => true
  | None => false
  end.

(** A text without any letter, such as the decimal text of an int. *)
Fixpoint plain (s : string) : bool :=
  match s with
  | EmptyString => true
  | String c t => (N_of_ascii c <? 65)%N && plain t
  end.

(** Inputs on which no text conversion of a call can fail: the interpreter
    refuses to convert an int of more than 4300 digits to text (its default
    limit) and to print values nested beyond its recursion limit. An int
    is short when it has at most 4300 digits. *)
Definition short_int (z : Z) : bool := (Z.abs z <? 10 ^ 4300)%Z.

Definition scalar (v : pyval) : bool :=
  match v with
  | PInt z => short_int z
  | PList _ | PDict _ => false
  | _ => true
  end.

(** A scalar, or a list or dict of scalars. *)
Definition shallow (v : pyval) : bool :=
  match v with
  | PList l => forallb scalar l
  | PDict d => forallb (fun kv => scalar (snd kv)) d
  | _ => scalar v
  end.

Definition printable_space (space : IfcSpace) : bool :=
  short_int (space_step_id space)
  && forallb (fun group => forallb (fun kv => shallow (snd kv)) (snd group))
       (get_psets space).

(** The thresholds, the spaces and the number of spaces all print. *)
Definition printable (kwargs : dict) (model : ifc_file) : bool :=
  shallow (residential_min kwargs)
  && shallow (commercial_min kwargs)
  && short_int (Z.of_nat (List.length (spaces_of model)))
  && forallb printable_space (spaces_of model).

End Checker.

(** ** Sample models (float-free) *)

Module Samples.

Definition space (name : option string) (groups : list (string * dict (F := no_float)))
  : IfcSpace (F := no_float) :=
  {| space_step_id := 12; GlobalId := Some "0BTBFw6f90Nfh9rP1dlXr2";
     Name := name; LongName := None; get_psets := groups |}.

Definition model (spaces : list (IfcSpace (F := no_float))) : ifc_file (F := no_float) :=
  {| spaces_of := spaces; storeys_of := [] |}.

Definition office_101 := space (Some "Office 101") [].

Definition bedroom_2 :=
  space (Some "Bedroom 2") [("Pset_SpaceCommon", [("Height", PInt 2650)])].

Definition flat :=
  space None [("Pset_SpaceCommon", [("Dwelling Type", PStr "flat"); ("Height", PInt 2750)])].

(** Two groups, each with a numeric height key. *)
Definition two_heights :=
  space (Some "Office")
    [("Pset_A", [("Height", PInt 2650)]); ("Pset_B", [("Height", PInt 3000)])].

(** A boolean under a key that contains "height". *)
Definition flagged :=
  space (Some "Office") [("Pset_SpaceCommon", [("HasHeight", PBool true)])].

(** A residential space without any property group. *)
Definition bedroom_1 := space (Some "Bedroom 1") [].

Definition storey (elevation : option Z) : IfcBuildingStorey (F := no_float) :=
  {| storey_step_id := 40; Elevation := option_map PInt elevation |}.

Definition model_with (storeys : list (IfcBuildingStorey (F := no_float)))
    (spaces : list (IfcSpace (F := no_float))) : ifc_file (F := no_float) :=
  {| spaces_of := spaces; storeys_of := storeys |}.

Definition three_spaces := model [bedroom_2; flat; office_101].

(** What the calls on these models return. *)
Definition fail_record_bedroom_2 : result_dict := {|
  element_id := Some "0BTBFw6f90Nfh9rP1dlXr2";
  element_type := "IfcSpace";
  element_name := "Bedroom 2";
  element_name_long := None;
  check_status := "fail";
  actual_value := "2650mm";
  required_value := ">= 2700mm (Residential)";
  comment := Some "Space height 2650mm is below required minimum 2700mm for Residential";
  log := Some "use_type=Residential, properties_checked=True"
|}.

Definition out_bedroom_2 : list result_dict :=
  [ fail_record_bedroom_2;
    {| element_id := None;
       element_type := "Summary";
       element_name := "Room Heights Check Summary";
       element_name_long := None;
       check_status := "fail";
       actual_value := "0 pass, 1 fail, 0 warning";
       required_value := "All 1 spaces meet minimum height requirements";
       comment := Some "Checked 1 space(s): 0 compliant, 1 non-compliant, 0 with missing data";
       log := None |} ].

Definition out_three_spaces : list result_dict :=
  Eval vm_compute in
    match returned [] three_spaces with
    | Return out => out
    | Raise _ => []
    end.

Definition out_flagged : list result_dict :=
  Eval vm_compute in
    match returned [] (model [flagged]) with
    | Return out => out
    | Raise _ => []
    end.

Definition abc_residential : dict (F := no_float) :=
  [("residential_min_height", PStr "abc")].

(** A height beyond what a float holds, and a keyword in a text value. *)
Definition hall := space (Some "Hall") [("Pset_SpaceCommon", [("Height", PInt (2 ^ 1024))])].

Definition unit_4 :=
  space (Some "Unit 4") [("Pset_SpaceOccupancy", [("Usage", PStr "Private DWELLING")])].

Definition out_flat_office : list result_dict :=
  Eval vm_compute in
    match returned [] (model [flat; office_101]) with
    | Return out => out
    | Raise _ => []
    end.

Definition out_three_spaces_3000 : list result_dict :=
  Eval vm_compute in
    match returned [("residential_min_height", PInt 3000);
                    ("commercial_min_height", PInt 3000)] three_spaces with
    | Return out => out
    | Raise _ => []
    end.

Definition two_storeys : list (IfcBuildingStorey (F := no_float)) :=
  [storey (Some 0%Z); storey (Some 3200%Z); storey None].

End Samples.

Section Properties.
Context {F : PyFloat}.

(** ** The loop *)

Lemma scan_properties_acc (properties : dict) (acc : option pynum) :
  scan_properties properties acc =
  match scan_properties properties None with
  | Some h => Some h
  | None => acc
  end.
Proof.
  induction properties as [|[k v] rest IH]; simpl; [reflexivity|].
  destruct (contains "height" (lower k)); [|exact IH].
  destruct (as_number v); [reflexivity|exact IH].
Qed.

Lemma discover_height_acc (psets : list (string * dict)) (acc : option pynum) :
  discover_height psets acc =
  match discover_height psets None with
  | Some h => Some h
  | None => acc
  end.
Proof.
  revert acc.
  induction psets as [|[n props] rest IH]; intros acc;
    cbn [discover_height]; [reflexivity|].
  destruct (contains "height" (lower (str (PDict props)))); [|apply IH].
  rewrite (IH (scan_properties props acc)), (IH (scan_properties props None)).
  destruct (discover_height rest None); [reflexivity|].
  apply scan_properties_acc.
Qed.

Lemma count_status_app (s : string) (l1 l2 : list result_dict) :
  count_status s (l1 ++ l2) = (count_status s l1 + count_status s l2)%nat.
Proof.
  unfold count_status. rewrite filter_app, length_app. reflexivity.
Qed.

Lemma check_space_inv (R C : pyval) (space : IfcSpace) (st st' : loop_state) :
  check_space R C space st = Return st' ->
  exists r, describes R C space r /\ tallies st r st'.
Proof.
  unfold check_space, describes, tallies, required_height_of, space_use_type.
  destruct (discover_height (get_psets space) None) as [h|].
  - destruct (ge h _) as [b|e]; cbn [obind]; [|discriminate].
    destruct (fmt0f h) as [shown|e]; cbn [obind]; [|discriminate].
    destruct b; cbn [obind]; intros H; injection H as <-;
      eexists; (split; [|repeat split; cbn; rewrite ?Nat.add_0_r, ?Nat.add_1_r; reflexivity]);
      cbn [element_id element_type element_name element_name_long required_value
           log check_status actual_value comment];
      repeat (split; [reflexivity|]); exists shown; repeat (split; [reflexivity|]).
    + left. repeat split.
    + right. repeat split.
  - cbn [obind]. intros H; injection H as <-.
    eexists; (split; [|repeat split; cbn; rewrite ?Nat.add_0_r, ?Nat.add_1_r; reflexivity]).
    cbn [element_id element_type element_name element_name_long required_value
         log check_status actual_value comment].
    repeat split.
Qed.

Lemma check_space_ok (R C : pyval) (space : IfcSpace) (st : loop_state) :
  (exists st', check_space R C space st = Return st') <-> space_ok R C space = true.
Proof.
  unfold check_space, space_ok, required_height_of.
  destruct (discover_height (get_psets space) None) as [h|].
  - destruct (ge h _) as [b|e]; cbn [obind].
    + destruct (fmt0f h) as [shown|e]; cbn [obind].
      * destruct b; cbn [obind]; split; intros; eauto.
      * split; [intros [st' H]; discriminate|discriminate].
    + split; [intros [st' H]; discriminate|discriminate].
  - cbn [obind]. split; intros; eauto.
Qed.


Lemma check_spaces_inv (R C : pyval) (spaces : list IfcSpace) :
  forall st st',
    check_spaces R C spaces st = Return st' ->
    exists rs,
      Forall2 (describes R C) spaces rs /\
      results st' = (results st ++ rs)%list /\
      passed_count st' = (passed_count st + count_status "pass" rs)%nat /\
      failed_count st' = (failed_count st + count_status "fail" rs)%nat /\
      warning_count st' = (warning_count st + count_status "warning" rs)%nat.
Proof.
  induction spaces as [|space rest IH]; intros st st'; cbn [check_spaces].
  - intros H; injection H as <-. exists []. rewrite app_nil_r.
    unfold count_status; cbn. rewrite !Nat.add_0_r. repeat split. constructor.
  - destruct (check_space R C space st) as [st1|e] eqn:E1; cbn [obind]; [|discriminate].
    intros H.
    destruct (check_space_inv _ _ _ _ _ E1) as (r & Hr & Hres & Hp & Hf & Hw).
    destruct (IH _ _ H) as (rs & Hrs & Hres' & Hp' & Hf' & Hw').
    exists (r :: rs). split; [constructor; assumption|].
    change (r :: rs) with ([r] ++ rs)%list.
    rewrite !count_status_app, Hres', Hres, Hp', Hp, Hf', Hf, Hw', Hw, <- app_assoc.
    repeat split; lia.
Qed.

Lemma check_spaces_ok (R C : pyval) (spaces : list IfcSpace) :
  forall st,
    (exists st', check_spaces R C spaces st = Return st')
    <-> forallb (space_ok R C) spaces = true.
Proof.
  induction spaces as [|space rest IH]; intros st; cbn [check_spaces forallb].
  - split; eauto.
  - rewrite andb_true_iff, <- (check_space_ok R C space st). split.
    + intros [st' H].
      destruct (check_space R C space st) as [st1|e] eqn:E1; cbn [obind] in H;
        [|discriminate].
      split; [eauto|]. apply (IH st1). eauto.
    + intros [[st1 E1] Hrest]. rewrite E1. cbn [obind]. apply IH, Hrest.
Qed.

(** The call, with the reads of the model carried out. *)
Lemma returned_unfold (kwargs : dict) (model : ifc_file) :
  returned kwargs model =
  match spaces_of model with
  | [] => Return [no_spaces_record]
  | _ =>
      obind (check_spaces (residential_min kwargs) (commercial_min kwargs)
               (spaces_of model)
               {| results := []; passed_count := 0; failed_count := 0;
                  warning_count := 0 |})
        (fun st =>
           Return (results st
                     ++ [summary_record (List.length (spaces_of model)) st])%list)
  end.
Proof.
  unfold returned, check_room_heights, bind, by_type_IfcSpace,
    by_type_IfcBuildingStorey, lift, ret.
  destruct (spaces_of model) as [|space rest]; [reflexivity|].
  destruct (check_spaces _ _ _ _); reflexivity.
Qed.

Lemma model_after_same (kwargs : dict) (model : ifc_file) :
  model_after kwargs model = model.
Proof.
  unfold model_after, check_room_heights, bind, by_type_IfcSpace,
    by_type_IfcBuildingStorey, lift, ret.
  destruct (spaces_of model) as [|space rest]; [reflexivity|].
  destruct (check_spaces _ _ _ _); reflexivity.
Qed.

Lemma returned_ok (kwargs : dict) (model : ifc_file) :
  (exists out, returned kwargs model = Return out)
  <-> forallb (space_ok (residential_min kwargs) (commercial_min kwargs))
        (spaces_of model) = true.
Proof.
  rewrite returned_unfold.
  destruct (spaces_of model) as [|space rest] eqn:E.
  - split; eauto.
  - rewrite <- (check_spaces_ok _ _ (space :: rest)
                  {| results := []; passed_count := 0; failed_count := 0;
                     warning_count := 0 |}).
    split.
    + intros [out H].
      destruct (check_spaces _ _ _ _) as [st|e]; [eauto|discriminate].
    + intros [st H]. rewrite H. cbn [obind]. eauto.
Qed.

(** Shape of the result for a model with spaces: one record per space, in
    order, then the summary built from the counters. *)
Lemma returned_inv (kwargs : dict) (model : ifc_file) (out : list result_dict) :
  spaces_of model <> [] ->
  returned kwargs model = Return out ->
  exists rs st,
    Forall2 (describes (residential_min kwargs) (commercial_min kwargs))
      (spaces_of model) rs /\
    out = (rs ++ [summary_record (List.length (spaces_of model)) st])%list /\
    passed_count st = count_status "pass" rs /\
    failed_count st = count_status "fail" rs /\
    warning_count st = count_status "warning" rs.
Proof.
  intros Hne. rewrite returned_unfold.
  destruct (spaces_of model) as [|space rest] eqn:E; [contradiction|].
  destruct (check_spaces _ _ _ _) as [st|e] eqn:Es; cbn [obind]; [|discriminate].
  intros H; injection H as <-.
  destruct (check_spaces_inv _ _ _ _ _ Es) as (rs & Hrs & Hres & Hp & Hf & Hw).
  cbn in Hres, Hp, Hf, Hw.
  exists rs, st. rewrite Hres. repeat split; assumption.
Qed.

Lemma describes_status (R C : pyval) (space : IfcSpace) (r : result_dict) :
  describes R C space r ->
  check_status r = "pass" \/ check_status r = "fail" \/ check_status r = "warning".
Proof.
  intros (_ & _ & _ & _ & _ & _ & H).
  destruct (discover_height (get_psets space) None).
  - destruct H as (shown & _ & _ & [(_ & H & _)|(_ & H & _)]); auto.
  - destruct H as (H & _); auto.
Qed.

Lemma describes_kind (R C : pyval) (space : IfcSpace) (r : result_dict) :
  describes R C space r -> element_type r = "IfcSpace".
Proof. intros (_ & H & _); exact H. Qed.

Lemma count_status_cons (s : string) (r : result_dict) (rs : list result_dict) :
  count_status s (r :: rs) = (count_status s [r] + count_status s rs)%nat.
Proof. apply (count_status_app s [r] rs). Qed.

Lemma counted_once (r : result_dict) :
  check_status r = "pass" \/ check_status r = "fail" \/ check_status r = "warning" ->
  (count_status "pass" [r] + count_status "fail" [r] + count_status "warning" [r])%nat
  = 1%nat.
Proof.
  unfold count_status; cbn [filter].
  intros [H|[H|H]]; rewrite H; reflexivity.
Qed.

Lemma described_counts (R C : pyval) (spaces : list IfcSpace) (rs : list result_dict) :
  Forall2 (describes R C) spaces rs ->
  (count_status "pass" rs + count_status "fail" rs + count_status "warning" rs)%nat
  = List.length spaces.
Proof.
  induction 1 as [|space r spaces rs Hr _ IH]; [reflexivity|].
  rewrite (count_status_cons "pass"), (count_status_cons "fail"),
    (count_status_cons "warning").
  pose proof (counted_once r (describes_status _ _ _ _ Hr)).
  cbn [List.length]. lia.
Qed.

Lemma described_non_summary (R C : pyval) (spaces : list IfcSpace)
    (rs : list result_dict) (summary : result_dict) :
  Forall2 (describes R C) spaces rs ->
  element_type summary = "Summary" ->
  non_summary (rs ++ [summary]) = rs /\ last_record (rs ++ [summary]) = summary.
Proof.
  intros Hrs Hs. split.
  - unfold non_summary. rewrite filter_app. cbn [filter]. rewrite Hs. cbn.
    rewrite app_nil_r.
    induction Hrs as [|space r spaces rs Hr _ IH]; [reflexivity|].
    cbn [filter]. rewrite (describes_kind _ _ _ _ Hr). cbn. f_equal. exact IH.
  - unfold last_record. apply last_last.
Qed.

Lemma summary_kind (total : nat) (st : loop_state) :
  element_type (summary_record total st) = "Summary".
Proof. reflexivity. Qed.

(** ** The ['.0f'] text of a small int *)

Lemma int_fmt0f_small (z : Z) :
  (Z.abs z < 2 ^ 53)%Z ->
  int_fmt0f z = Return ((if (z <? 0)%Z then "-" else "") ++ int_str (Z.abs z)).
Proof.
  intros Hz. unfold int_fmt0f, round_double.
  pose proof (Z.abs_nonneg z) as Hn.
  set (n := Z.abs z) in *.
  assert (Hbits : (Z.log2 n + 1 <=? 53)%Z = true).
  { apply Z.leb_le.
    destruct (Z.eq_dec n 0) as [->|Hnz]; [cbn; lia|].
    assert (Z.log2 n < 53)%Z by (apply Z.log2_lt_pow2; lia). lia. }
  rewrite Hbits.
  assert (Hbig : (2 ^ 53 < 2 ^ 1024)%Z) by (apply Z.pow_lt_mono_r; lia).
  assert (Hno : (2 ^ 1024 <=? n)%Z = false) by (apply Z.leb_gt; lia).
  rewrite Hno. reflexivity.
Qed.

(** ** Cardinality, counters, statuses *)

(** C5: for a model with N >= 1 spaces, the numbers of pass, fail and
    warning records among the non-summary records add up to N; the trailing
    summary has status fail exactly when the fail count is positive and pass
    otherwise; and its actual-value text is "<pass> pass, <fail> fail,
    <warning> warning" with exactly these counts. *)
Theorem C5_counter_consistency (kwargs : dict) (model : ifc_file)
    (out : list result_dict) :
  spaces_of model <> [] ->
  returned kwargs model = Return out ->
  let records := non_summary out in
  let summary := last_record out in
  let passed := count_status "pass" records in
  let failed := count_status "fail" records in
  let warned := count_status "warning" records in
  (passed + failed + warned)%nat = List.length (spaces_of model) /\
  (check_status summary = "fail" <-> (0 < failed)%nat) /\
  (check_status summary = "pass" <-> failed = 0%nat) /\
  actual_value summary =
    nat_str passed ++ " pass, " ++ nat_str failed ++ " fail, "
      ++ nat_str warned ++ " warning".
Proof.
  intros Hne Hout.
  destruct (returned_inv _ _ _ Hne Hout) as (rs & st & Hrs & -> & Hp & Hf & Hw).
  destruct (described_non_summary _ _ _ _ _ Hrs (summary_kind (List.length (spaces_of model)) st))
    as [-> ->].
  cbv zeta. split; [exact (described_counts _ _ _ _ Hrs)|].
  unfold summary_record; cbn [check_status actual_value].
  rewrite Hp, Hf, Hw.
  destruct (count_status "fail" rs) as [|k]; cbn [Nat.eqb].
  - repeat split; try reflexivity; try discriminate; intros; lia.
  - repeat split; try reflexivity; try discriminate; intros; lia.
Qed.

(** C6: for a model with N >= 1 spaces a call that returns yields exactly
    N + 1 records, the last one tagged Summary. For a model with no space
    the call returns exactly one record, a Summary with status log, actual
    value "0 spaces found" and required value ">= 1 space", whatever the
    options and the storeys. *)
Theorem C6_cardinality (kwargs : dict) (model : ifc_file) :
  (spaces_of model = [] ->
   exists r,
     returned kwargs model = Return [r] /\
     element_type r = "Summary" /\
     check_status r = "log" /\
     actual_value r = "0 spaces found" /\
     required_value r = ">= 1 space")
  /\
  (spaces_of model <> [] ->
   forall out,
     returned kwargs model = Return out ->
     List.length out = S (List.length (spaces_of model)) /\
     element_type (last_record out) = "Summary").
Proof.
  split.
  - intros E. exists no_spaces_record. rewrite returned_unfold, E.
    repeat split.
  - intros Hne out Hout.
    destruct (returned_inv _ _ _ Hne Hout) as (rs & st & Hrs & -> & _).
    split.
    + rewrite length_app, <- (Forall2_length Hrs). cbn. lia.
    + unfold last_record. rewrite last_last. reflexivity.
Qed.

(** C7: every record of a returned sequence has a check status among pass,
    fail, warning and log, and every record that is not the summary has
    element kind "IfcSpace"; for every model and every options. *)
Theorem C7_closed_vocabulary (kwargs : dict) (model : ifc_file)
    (out : list result_dict) :
  returned kwargs model = Return out ->
  Forall (fun r => In (check_status r) statuses) out /\
  Forall (fun r => element_type r = "IfcSpace") (non_summary out) /\
  Forall (fun r => element_type r <> "Summary" -> element_type r = "IfcSpace") out.
Proof.
  intros Hout.
  destruct (spaces_of model) as [|space rest] eqn:E.
  - rewrite returned_unfold, E in Hout. injection Hout as <-.
    repeat split.
    + constructor; [|constructor]. cbn. tauto.
    + cbn. constructor.
    + constructor; [|constructor]. cbn. intros H; now elim H.
  - assert (Hne : spaces_of model <> []) by (rewrite E; discriminate).
    destruct (returned_inv _ _ _ Hne Hout) as (rs & st & Hrs & -> & _).
    destruct (described_non_summary _ _ _ _ _ Hrs
                (summary_kind (List.length (spaces_of model)) st)) as [-> _].
    assert (Hkind : Forall (fun r => element_type r = "IfcSpace") rs).
    { clear -Hrs. induction Hrs as [|sp r sps rs Hr _ IH]; constructor;
        [exact (describes_kind _ _ _ _ Hr)|exact IH]. }
    repeat split.
    + apply Forall_app. split.
      * clear -Hrs. induction Hrs as [|sp r sps rs Hr _ IH]; constructor; [|exact IH].
        destruct (describes_status _ _ _ _ Hr) as [H|[H|H]]; rewrite H; cbn; tauto.
      * constructor; [|constructor]. unfold summary_record; cbn [check_status].
        destruct (Nat.eqb _ _); cbn; tauto.
    + exact Hkind.
    + apply Forall_app. split.
      * eapply Forall_impl; [|exact Hkind]. intros r H _. exact H.
      * constructor; [|constructor]. intros H. now elim H.
Qed.

Lemma Forall2_at {A B : Type} (P : A -> B -> Prop) (l : list A) (l' : list B) :
  Forall2 P l l' ->
  forall i a, nth_error l i = Some a -> exists b, nth_error l' i = Some b /\ P a b.
Proof.
  induction 1 as [|x y l l' Hxy _ IH]; intros [|i] a; cbn; try discriminate.
  - intros H; injection H as <-. eauto.
  - apply IH.
Qed.

(** The record at the position of a space describes that space. *)
Lemma record_of_space (kwargs : dict) (model : ifc_file) (out : list result_dict)
    (i : nat) (space : IfcSpace) :
  returned kwargs model = Return out ->
  nth_error (spaces_of model) i = Some space ->
  exists r,
    nth_error out i = Some r /\
    describes (residential_min kwargs) (commercial_min kwargs) space r.
Proof.
  intros Hout Hi.
  assert (Hne : spaces_of model <> []).
  { intros E. rewrite E in Hi. destruct i; discriminate. }
  destruct (returned_inv _ _ _ Hne Hout) as (rs & st & Hrs & -> & _).
  destruct (Forall2_at _ _ _ Hrs _ _ Hi) as (r & Hr & Hd).
  exists r. split; [|exact Hd].
  rewrite nth_error_app1; [exact Hr|].
  apply nth_error_Some. rewrite Hr. discriminate.
Qed.

(** ** Threshold application *)

(** C1: the record of a space with discovered height H has status pass
    exactly when H >= the threshold of its use type (residential threshold,
    2700 unless overridden, for Residential; commercial threshold, 2800
    unless overridden, for Commercial) and fail otherwise; on fail the
    comment gives the height, the required minimum and the use type, on pass
    there is no comment; without a discovered height the status is warning
    and the actual value "Height not specified". *)
Theorem C1_threshold_application (kwargs : dict) (model : ifc_file)
    (out : list result_dict) (i : nat) (space : IfcSpace) :
  returned kwargs model = Return out ->
  nth_error (spaces_of model) i = Some space ->
  let residential := classify (get_psets space) (space_name_of space) in
  let required := if residential then residential_min kwargs else commercial_min kwargs in
  (absent "residential_min_height" kwargs -> residential_min kwargs = PInt 2700) /\
  (absent "commercial_min_height" kwargs -> commercial_min kwargs = PInt 2800) /\
  exists r,
    nth_error out i = Some r /\
    match discover_height (get_psets space) None with
    | Some H =>
        (check_status r = "pass" <-> ge H required = Return true) /\
        (check_status r = "fail" <-> ge H required = Return false) /\
        (forall z t,
           H = NumInt z -> required = PInt t ->
           (check_status r = "pass" <-> (t <= z)%Z) /\
           (check_status r = "fail" <-> (z < t)%Z)) /\
        (check_status r = "pass" -> comment r = None) /\
        (check_status r = "fail" ->
         exists shown,
           fmt0f H = Return shown /\
           comment r =
             Some ("Space height " ++ shown ++ "mm is below required minimum "
                     ++ str required ++ "mm for "
                     ++ (if residential then "Residential" else "Commercial")))
    | None =>
        check_status r = "warning" /\ actual_value r = "Height not specified"
    end.
Proof.
  intros Hout Hi. cbv zeta.
  split; [intros H; apply H|]. split; [intros H; apply H|].
  destruct (record_of_space _ _ _ _ _ Hout Hi) as (r & Hr & Hd).
  exists r. split; [exact Hr|].
  destruct Hd as (_ & _ & _ & _ & _ & _ & Hd).
  unfold required_height_of, space_use_type, use_type_of in Hd.
  destruct (discover_height (get_psets space) None) as [H|].
  - destruct Hd as (shown & Hshown & _ & Hcase).
    assert (Hpass : check_status r = "pass" <->
                    ge H (if classify (get_psets space) (space_name_of space)
                          then residential_min kwargs else commercial_min kwargs)
                    = Return true).
    { destruct Hcase as [(Hge & Hs & _)|(Hge & Hs & _)]; rewrite Hge, Hs;
        split; intros; (reflexivity || discriminate). }
    assert (Hfail : check_status r = "fail" <->
                    ge H (if classify (get_psets space) (space_name_of space)
                          then residential_min kwargs else commercial_min kwargs)
                    = Return false).
    { destruct Hcase as [(Hge & Hs & _)|(Hge & Hs & _)]; rewrite Hge, Hs;
        split; intros; (reflexivity || discriminate). }
    split; [exact Hpass|]. split; [exact Hfail|]. split; [|split].
    + intros z t -> Ht. rewrite Hpass, Hfail, Ht. unfold ge; cbn [as_number num_ge].
      destruct (Z.leb_spec t z); split; split; intros; try lia;
        (reflexivity || discriminate).
    + intros Hs. destruct Hcase as [(_ & _ & Hc)|(_ & Hs' & _)]; [exact Hc|].
      rewrite Hs in Hs'. discriminate.
    + intros Hs. destruct Hcase as [(_ & Hs' & _)|(_ & _ & Hc)].
      * rewrite Hs in Hs'. discriminate.
      * exists shown. split; [exact Hshown|exact Hc].
  - destruct Hd as (Hs & Ha & _). split; assumption.
Qed.

(** ** Classification *)

Lemma psets_residential_exists (psets : list (string * dict)) :
  psets_residential psets = existsb mentions_residential psets.
Proof.
  induction psets as [|[n props] rest IH]; [reflexivity|].
  cbn [psets_residential existsb]. unfold mentions_residential at 1. cbn [snd].
  destruct (contains "residential" _ || contains "dwelling" _); [reflexivity|exact IH].
Qed.

Lemma classify_spec (psets : list (string * dict)) (space_name : string) :
  classify psets space_name =
  existsb mentions_residential psets || name_is_residential space_name.
Proof.
  unfold classify.
  replace (match psets with [] => false | _ :: _ => psets_residential psets end)
    with (existsb mentions_residential psets)
    by (destruct psets; [reflexivity|symmetry; apply psets_residential_exists]).
  destruct (existsb mentions_residential psets); [reflexivity|].
  cbn [negb andb orb].
  destruct space_name as [|c t]; reflexivity.
Qed.

(** C4: a space is Residential when some property group's text contains
    "residential" or "dwelling" (case-insensitive); otherwise when its
    display name contains one of "residential", "dwelling", "apartment",
    "bedroom", "family" (case-insensitive); otherwise it is Commercial. The
    use type so determined is the one its record reports. *)
Theorem C4_classification_precedence (space : IfcSpace) :
  let in_groups :=
    exists group,
      In group (get_psets space) /\
      (contains "residential" (lower (str (PDict (snd group)))) = true \/
       contains "dwelling" (lower (str (PDict (snd group)))) = true) in
  let in_name :=
    exists term,
      In term ["residential"; "dwelling"; "apartment"; "bedroom"; "family"] /\
      contains term (lower (space_name_of space)) = true in
  (in_groups -> space_use_type space = "Residential") /\
  (~ in_groups -> in_name -> space_use_type space = "Residential") /\
  (~ in_groups -> ~ in_name -> space_use_type space = "Commercial") /\
  (forall kwargs model out i,
     returned kwargs model = Return out ->
     nth_error (spaces_of model) i = Some space ->
     exists r,
       nth_error out i = Some r /\
       log r = Some ("use_type=" ++ space_use_type space ++ ", properties_checked=True") /\
       required_value r =
         ">= "
           ++ str (if String.eqb (space_use_type space) "Residential"
                   then residential_min kwargs else commercial_min kwargs)
           ++ "mm (" ++ space_use_type space ++ ")").
Proof.
  cbv zeta.
  assert (Hg : existsb mentions_residential (get_psets space) = true <->
               exists group,
                 In group (get_psets space) /\
                 (contains "residential" (lower (str (PDict (snd group)))) = true \/
                  contains "dwelling" (lower (str (PDict (snd group)))) = true)).
  { rewrite existsb_exists. split; intros (g & Hin & H); exists g; (split; [exact Hin|]).
    - unfold mentions_residential in H. apply orb_true_iff in H. exact H.
    - unfold mentions_residential. apply orb_true_iff. exact H. }
  assert (Hn : name_is_residential (space_name_of space) = true <->
               exists term,
                 In term ["residential"; "dwelling"; "apartment"; "bedroom"; "family"] /\
                 contains term (lower (space_name_of space)) = true).
  { unfold name_is_residential. rewrite existsb_exists. reflexivity. }
  unfold space_use_type. rewrite classify_spec.
  repeat split.
  - intros H. apply Hg in H. rewrite H. reflexivity.
  - intros _ H. apply Hn in H. rewrite H, orb_true_r. reflexivity.
  - intros H1 H2.
    destruct (existsb mentions_residential (get_psets space)); [elim H1; apply Hg; reflexivity|].
    destruct (name_is_residential (space_name_of space)); [elim H2; apply Hn; reflexivity|].
    reflexivity.
  - intros kwargs model out i Hout Hi.
    destruct (record_of_space _ _ _ _ _ Hout Hi) as (r & Hr & Hd).
    exists r. split; [exact Hr|].
    destruct Hd as (_ & _ & _ & _ & Hreq & Hlog & _).
    unfold space_use_type, required_height_of in Hreq, Hlog.
    rewrite classify_spec in Hreq, Hlog.
    split; [exact Hlog|]. rewrite Hreq.
    destruct (existsb mentions_residential (get_psets space)
              || name_is_residential (space_name_of space)); reflexivity.
Qed.

(** ** Inert inputs, repeated calls *)

(** C8: the sloped-ceiling threshold and the storeys have no effect on the
    output: two calls whose options agree on every key but
    "sloped_min_height", on models with the same spaces (whatever their
    storeys and the elevations of these), return the same thing. *)
Theorem C8_sloped_and_storeys_inert (kwargs kwargs' : dict) (model model' : ifc_file) :
  (forall k default,
     k <> "sloped_min_height" -> dict_get kwargs k default = dict_get kwargs' k default) ->
  spaces_of model = spaces_of model' ->
  returned kwargs model = returned kwargs' model'.
Proof.
  intros Hk Hs. rewrite !returned_unfold, <- Hs.
  unfold residential_min, commercial_min.
  rewrite (Hk "residential_min_height"), (Hk "commercial_min_height")
    by discriminate.
  reflexivity.
Qed.

(** C9: a call leaves the model as it found it, a second call on the model
    the first one left returns the same thing, and when two calls in a row
    return, they return equal result sequences. *)
Theorem C9_idempotent (kwargs : dict) (model : ifc_file) :
  model_after kwargs model = model /\
  returned kwargs (model_after kwargs model) = returned kwargs model /\
  snd (twice kwargs model) = model /\
  (forall r1 r2, fst (twice kwargs model) = Return (r1, r2) -> r1 = r2) /\
  ((exists out, returned kwargs model = Return out) ->
   exists out, fst (twice kwargs model) = Return (out, out)).
Proof.
  pose proof (model_after_same kwargs model) as Hm.
  assert (Htwice : twice kwargs model =
                   (match returned kwargs model with
                    | Return out => Return (out, out)
                    | Raise e => Raise e
                    end, model)).
  { unfold twice, bind, ret.
    unfold returned, model_after in *.
    destruct (check_room_heights kwargs model) as [o m1] eqn:E1.
    cbn [fst snd] in *. subst m1.
    destruct o as [out|e]; [|reflexivity].
    rewrite E1. reflexivity. }
  split; [exact Hm|]. split; [rewrite Hm; reflexivity|].
  rewrite Htwice. cbn [fst snd]. split; [reflexivity|]. split.
  - intros r1 r2 H. destruct (returned kwargs model); [|discriminate].
    injection H as <- <-. reflexivity.
  - intros [out ->]. exists out. reflexivity.
Qed.

(** ** Height discovery *)

(** *** A keyword in a key is a keyword in the text of its group *)

Lemma lower_app (a b : string) : lower (a ++ b) = lower a ++ lower b.
Proof. induction a as [|c a IH]; cbn; [reflexivity|now rewrite IH]. Qed.

Lemma prefix_app (n a b : string) :
  String.prefix n a = true -> String.prefix n (a ++ b) = true.
Proof.
  revert a. induction n as [|c n IH]; intros a;
    [intros _; destruct (a ++ b); reflexivity|].
  destruct a as [|d a]; cbn; [discriminate|].
  destruct (ascii_dec c d); [apply IH|discriminate].
Qed.

Lemma contains_app_l (n a b : string) :
  contains n a = true -> contains n (a ++ b) = true.
Proof.
  induction a as [|c a IH].
  - cbn [append]. destruct n; [destruct b; reflexivity|discriminate].
  - cbn [contains]. intros H. apply orb_true_iff in H. destruct H as [H|H].
    + change (String c a ++ b) with (String c (a ++ b)).
      pose proof (prefix_app n (String c a) b H) as Hp.
      cbn [append] in Hp. cbn [contains]. rewrite Hp. reflexivity.
    + change (String c a ++ b) with (String c (a ++ b)).
      cbn [contains]. rewrite (IH H). apply orb_true_r.
Qed.

Lemma contains_app_r (n a b : string) :
  contains n b = true -> contains n (a ++ b) = true.
Proof.
  intros H. induction a as [|c a IH]; [exact H|].
  change (String c a ++ b) with (String c (a ++ b)).
  cbn [contains]. rewrite IH. apply orb_true_r.
Qed.

Lemma repr_char_letter (q c : ascii) :
  q = squote \/ q = dquote ->
  letter (lower_char c) = true ->
  repr_char q c = String c "".
Proof.
  intros [-> | ->];
    destruct c as [[] [] [] [] [] [] [] []]; vm_compute;
    intros H; (discriminate H || reflexivity).
Qed.

Lemma prefix_lower_repr (q : ascii) (n s : string) :
  q = squote \/ q = dquote ->
  letters n = true ->
  String.prefix n (lower s) = true ->
  String.prefix n (lower (repr_chars q s)) = true.
Proof.
  intros Hq. revert s.
  induction n as [|a n IH]; intros s Hn;
    [intros _; destruct (lower (repr_chars q s)); reflexivity|].
  cbn [letters] in Hn. apply andb_true_iff in Hn. destruct Hn as [Ha Hn].
  destruct s as [|c s]; cbn [lower String.prefix]; [discriminate|].
  destruct (ascii_dec a (lower_char c)) as [E|]; [|discriminate].
  intros H. cbn [repr_chars].
  rewrite (repr_char_letter q c Hq) by (rewrite <- E; exact Ha).
  cbn [append lower String.prefix].
  destruct (ascii_dec a (lower_char c)); [|contradiction].
  apply IH; assumption.
Qed.

Lemma contains_lower_repr (q : ascii) (n s : string) :
  q = squote \/ q = dquote ->
  letters n = true ->
  contains n (lower s) = true ->
  contains n (lower (repr_chars q s)) = true.
Proof.
  intros Hq Hn. induction s as [|c s IH].
  - intros H. exact H.
  - intros H. cbn [lower contains] in H. apply orb_true_iff in H.
    destruct H as [H|H].
    + assert (Hp := prefix_lower_repr q n (String c s) Hq Hn H).
      destruct (lower (repr_chars q (String c s))); cbn [contains];
        rewrite Hp; reflexivity.
    + cbn [repr_chars]. rewrite lower_app. apply contains_app_r, IH, H.
Qed.

Lemma contains_lower_str_repr (n s : string) :
  letters n = true ->
  contains n (lower s) = true ->
  contains n (lower (str_repr s)) = true.
Proof.
  intros Hn H. unfold str_repr.
  set (q := if has_char squote s && negb (has_char dquote s) then dquote else squote).
  assert (Hq : q = squote \/ q = dquote)
    by (unfold q; destruct (has_char squote s && negb (has_char dquote s)); auto).
  change (String q (repr_chars q s ++ String q ""))
    with (String q "" ++ (repr_chars q s ++ String q "")).
  rewrite lower_app. apply contains_app_r.
  rewrite lower_app. apply contains_app_l.
  apply contains_lower_repr; assumption.
Qed.

Lemma append_empty_r (x : string) : x ++ "" = x.
Proof. induction x as [|c x IH]; cbn; [reflexivity|now rewrite IH]. Qed.

Lemma append_assoc (a b c : string) : (a ++ b) ++ c = a ++ (b ++ c).
Proof. induction a as [|d a IH]; cbn; [reflexivity|now rewrite IH]. Qed.

Lemma concat_In (sep x : string) (l : list string) :
  In x l -> exists pre post, String.concat sep l = pre ++ x ++ post.
Proof.
  induction l as [|y l IH]; [intros []|].
  intros [->|Hin].
  - destruct l as [|z l]; cbn [String.concat].
    + exists "", "". cbn [append]. symmetry. apply append_empty_r.
    + exists "", (sep ++ String.concat sep (z :: l)). reflexivity.
  - destruct (IH Hin) as (pre & post & E).
    destruct l as [|z l]; [destruct Hin|].
    cbn [String.concat]. cbn [String.concat] in E. rewrite E.
    exists (y ++ sep ++ pre), post.
    rewrite !append_assoc. reflexivity.
Qed.

(** The guard of line 82 holds for every group that has a key with
    "height" in it. *)
Lemma key_in_group_text (n k : string) (v : pyval) (props : dict) :
  letters n = true ->
  In (k, v) props ->
  contains n (lower k) = true ->
  contains n (lower (str (PDict props))) = true.
Proof.
  intros Hn Hin Hk. cbn [str repr].
  assert (Hx : In (str_repr k ++ ": " ++ repr v)
                 (map (fun kv => str_repr (fst kv) ++ ": " ++ repr (snd kv)) props)).
  { apply (in_map (fun kv => str_repr (fst kv) ++ ": " ++ repr (snd kv)) props (k, v) Hin). }
  destruct (concat_In ", " _ _ Hx) as (pre & post & E).
  rewrite E.
  change (contains n (lower ("{" ++ (pre ++ (str_repr k ++ ": " ++ repr v) ++ post) ++ "}"))
          = true).
  rewrite !lower_app.
  apply contains_app_r, contains_app_l, contains_app_r, contains_app_l, contains_app_l.
  apply contains_lower_str_repr; assumption.
Qed.

Lemma scan_properties_first (p1 p2 : dict) (k : string) (v : pyval) (n : pynum)
    (acc : option pynum) :
  Forall (fun kv => qualifies kv = false) p1 ->
  contains "height" (lower k) = true ->
  as_number v = Some n ->
  scan_properties (p1 ++ (k, v) :: p2)%list acc = Some n.
Proof.
  intros Hp1 Hk Hv.
  induction Hp1 as [|[k' v'] p1 Hq _ IH]; cbn [app scan_properties].
  - rewrite Hk, Hv. reflexivity.
  - unfold qualifies in Hq; cbn [fst snd] in Hq.
    destruct (contains "height" (lower k')); [|exact IH].
    destruct (as_number v'); [discriminate|exact IH].
Qed.

(** The group after which no group supplies a height is the one whose
    height is kept, whatever the groups before it hold. *)
Lemma discover_height_supplied (before after : list (string * dict))
    (gname : string) (props : dict) (n : pynum) :
  mentions_height (gname, props) = true ->
  scan_properties props None = Some n ->
  discover_height after None = None ->
  forall acc, discover_height (before ++ (gname, props) :: after)%list acc = Some n.
Proof.
  intros Hm Hs Ha.
  induction before as [|[n' props'] before IH]; intros acc;
    cbn [app discover_height].
  - unfold mentions_height in Hm; cbn [snd] in Hm. rewrite Hm.
    rewrite discover_height_acc, Ha, scan_properties_acc, Hs. reflexivity.
  - destruct (contains "height" (lower (str (PDict props')))); apply IH.
Qed.

Lemma scan_properties_Some (props : dict) (h : pynum) :
  scan_properties props None = Some h ->
  exists k v,
    In (k, v) props /\ contains "height" (lower k) = true /\ as_number v = Some h.
Proof.
  induction props as [|[k v] rest IH]; cbn [scan_properties]; [discriminate|].
  destruct (contains "height" (lower k)) eqn:Ek.
  - destruct (as_number v) as [n|] eqn:Ev.
    + intros H; injection H as <-. exists k, v. repeat split; [left; reflexivity|assumption..].
    + intros H. destruct (IH H) as (k' & v' & Hin & Hk & Hv).
      exists k', v'. repeat split; [right; exact Hin|assumption..].
  - intros H. destruct (IH H) as (k' & v' & Hin & Hk & Hv).
    exists k', v'. repeat split; [right; exact Hin|assumption..].
Qed.

(** The guard of line 82 never keeps a group with a usable key out. *)
Lemma guard_redundant (props : dict) :
  contains "height" (lower (str (PDict props))) = false ->
  scan_properties props None = None.
Proof.
  intros Hg. destruct (scan_properties props None) as [h|] eqn:E; [|reflexivity].
  destruct (scan_properties_Some _ _ E) as (k & v & Hin & Hk & _).
  rewrite (key_in_group_text "height" k v props eq_refl Hin Hk) in Hg. discriminate.
Qed.

(** Every group is scanned, and a later group with a usable key replaces
    the height an earlier group supplied. *)
Lemma discover_height_snoc (psets : list (string * dict)) (group : string * dict) :
  discover_height (psets ++ [group])%list None =
  match scan_properties (snd group) None with
  | Some h => Some h
  | None => discover_height psets None
  end.
Proof.
  enough (H : forall acc,
             discover_height (psets ++ [group])%list acc =
             match scan_properties (snd group) None with
             | Some h => Some h
             | None => discover_height psets acc
             end) by apply H.
  induction psets as [|[n props] rest IH]; intros acc; cbn [app discover_height].
  - destruct group as [n props]; cbn [snd].
    destruct (contains "height" (lower (str (PDict props)))) eqn:Eg.
    + apply scan_properties_acc.
    + rewrite (guard_redundant _ Eg). reflexivity.
  - destruct (contains "height" (lower (str (PDict props)))); apply IH.
Qed.

(** C2: scanning does not stop at the first numeric height. Whatever the
    earlier groups hold, the height a space is compared with is the one its
    last group supplies, when that group supplies one; on a space with two
    property groups that each hold a numeric height key, the height compared
    is that of the later group (3000, status pass), not that of the earliest
    one (2650, which is below the 2800 required). *)
Theorem C2_later_group_overrides :
  (forall (psets : list (string * dict)) (group : string * dict) (h : pynum),
     scan_properties (snd group) None = Some h ->
     discover_height (psets ++ [group])%list None = Some h) /\
  scan_properties (F := no_float) [("Height", PInt 2650)] None = Some (NumInt 2650) /\
  discover_height (get_psets Samples.two_heights) None = Some (NumInt 3000) /\
  exists r s,
    returned [] (Samples.model [Samples.two_heights]) = Return [r; s] /\
    required_value r = ">= 2800mm (Commercial)" /\
    actual_value r = "3000mm" /\
    check_status r = "pass".
Proof.
  split; [intros psets group h H; rewrite discover_height_snoc, H; reflexivity|].
  split; [reflexivity|]. split; [reflexivity|].
  eexists. eexists. split; [vm_compute; reflexivity|].
  repeat split.
Qed.

(** ** Threshold overrides *)

Lemma returned_thresholds (kwargs kwargs' : dict) (model : ifc_file) :
  residential_min kwargs = residential_min kwargs' ->
  commercial_min kwargs = commercial_min kwargs' ->
  returned kwargs model = returned kwargs' model.
Proof. intros Hr Hc. rewrite !returned_unfold, Hr, Hc. reflexivity. Qed.

Lemma space_ok_In (R C : pyval) (spaces : list IfcSpace) (space : IfcSpace) :
  forallb (space_ok R C) spaces = true -> In space spaces -> space_ok R C space = true.
Proof. intros H Hin. rewrite forallb_forall in H. apply H, Hin. Qed.

(** C3 (amended): an absent override falls back to its default (2700, 2800,
    2100). A supplied override is used as given, numeric or not: whatever
    value "sloped_min_height" is given, the output is that of a call without
    it; the residential and commercial thresholds appear in the
    required-value text as [str] prints them, and a call raises as soon as a
    space with a discovered height meets a threshold that is not a number. *)
Theorem C3_overrides_used_as_given (kwargs : dict) (model : ifc_file) :
  (absent "residential_min_height" kwargs -> residential_min kwargs = PInt 2700) /\
  (absent "commercial_min_height" kwargs -> commercial_min kwargs = PInt 2800) /\
  (absent "sloped_min_height" kwargs -> sloped_min kwargs = PInt 2100) /\
  (forall v,
     returned (("sloped_min_height", v) :: kwargs) model = returned kwargs model) /\
  (forall v,
     residential_min (("residential_min_height", v) :: kwargs) = v /\
     commercial_min (("commercial_min_height", v) :: kwargs) = v) /\
  (forall out i space,
     returned kwargs model = Return out ->
     nth_error (spaces_of model) i = Some space ->
     exists r,
       nth_error out i = Some r /\
       required_value r =
         ">= "
           ++ str (required_height_of (residential_min kwargs) (commercial_min kwargs) space)
           ++ "mm (" ++ space_use_type space ++ ")") /\
  (forall space h,
     In space (spaces_of model) ->
     discover_height (get_psets space) None = Some h ->
     as_number (required_height_of (residential_min kwargs) (commercial_min kwargs) space)
       = None ->
     exists e, returned kwargs model = Raise e).
Proof.
  split; [intros H; apply H|]. split; [intros H; apply H|].
  split; [intros H; apply H|]. split; [|split; [|split]].
  - intros v. apply returned_thresholds; reflexivity.
  - intros v. split; reflexivity.
  - intros out i space Hout Hi.
    destruct (record_of_space _ _ _ _ _ Hout Hi) as (r & Hr & Hd).
    exists r. split; [exact Hr|]. apply Hd.
  - intros space h Hin Hh Hnum.
    destruct (returned kwargs model) as [out|e] eqn:E; [|eauto].
    assert (Hok : exists out, returned kwargs model = Return out) by eauto.
    apply returned_ok in Hok.
    pose proof (space_ok_In _ _ _ _ Hok Hin) as Hsp.
    unfold space_ok in Hsp. rewrite Hh in Hsp. unfold ge in Hsp.
    rewrite Hnum in Hsp. discriminate.
Qed.

(** ** Booleans as heights *)

(** C10 (amended): when the height of a space is supplied by a key whose
    value is a boolean (the first key of its group that contains "height"
    and holds an int, a float or a bool, no later group supplying a
    height), the boolean is the
    discovered height, True as 1 and False as 0: the status is never
    warning, the actual value is "1mm" or "0mm", and against an integer
    threshold t the status is pass exactly when t <= the boolean's value;
    so False fails every positive threshold and True every threshold
    above 1. *)
Theorem C10_boolean_height (kwargs : dict) (model : ifc_file) (out : list result_dict)
    (i : nat) (space : IfcSpace) (before after : list (string * dict))
    (gname key : string) (p1 p2 : dict) (b : bool) :
  returned kwargs model = Return out ->
  nth_error (spaces_of model) i = Some space ->
  get_psets space = (before ++ (gname, p1 ++ (key, PBool b) :: p2) :: after)%list ->
  Forall (fun kv => qualifies kv = false) p1 ->
  contains "height" (lower key) = true ->
  discover_height after None = None ->
  discover_height (get_psets space) None = Some (NumInt (Z.b2z b)) /\
  exists r,
    nth_error out i = Some r /\
    check_status r <> "warning" /\
    actual_value r = (if b then "1mm" else "0mm") /\
    forall t,
      required_height_of (residential_min kwargs) (commercial_min kwargs) space = PInt t ->
      (check_status r = "pass" <-> (t <= Z.b2z b)%Z) /\
      (check_status r = "fail" <-> (Z.b2z b < t)%Z) /\
      ((1 < t)%Z -> check_status r = "fail") /\
      (b = false -> (0 < t)%Z -> check_status r = "fail").
Proof.
  intros Hout Hi Hp Hp1 Hk Ha.
  assert (Hh : discover_height (get_psets space) None = Some (NumInt (Z.b2z b))).
  { rewrite Hp. apply discover_height_supplied; [| |exact Ha].
    - apply (key_in_group_text "height" key (PBool b)); [reflexivity| |exact Hk].
      apply in_elt.
    - apply scan_properties_first; [exact Hp1|exact Hk|reflexivity]. }
  split; [exact Hh|].
  destruct (record_of_space _ _ _ _ _ Hout Hi) as (r & Hr & Hd).
  exists r. split; [exact Hr|].
  destruct Hd as (_ & _ & _ & _ & _ & _ & Hd). rewrite Hh in Hd.
  destruct Hd as (shown & Hshown & Hactual & Hcase).
  assert (Hsh : shown = if b then "1" else "0").
  { destruct b; vm_compute in Hshown; injection Hshown as <-; reflexivity. }
  split; [|split].
  - destruct Hcase as [(_ & Hs & _)|(_ & Hs & _)]; rewrite Hs; discriminate.
  - rewrite Hactual, Hsh. destruct b; reflexivity.
  - intros t Ht. rewrite Ht in Hcase. unfold ge in Hcase; cbn [as_number num_ge] in Hcase.
    assert (Hpass : check_status r = "pass" <-> (t <= Z.b2z b)%Z).
    { destruct Hcase as [(Hge & Hs & _)|(Hge & Hs & _)]; injection Hge as Hge;
        rewrite Hs; split; intros; try reflexivity; try discriminate; lia. }
    assert (Hfail : check_status r = "fail" <-> (Z.b2z b < t)%Z).
    { destruct Hcase as [(Hge & Hs & _)|(Hge & Hs & _)]; injection Hge as Hge;
        rewrite Hs; split; intros; try reflexivity; try discriminate; lia. }
    split; [exact Hpass|]. split; [exact Hfail|]. split.
    + intros Hlt. apply Hfail. destruct b; cbn; lia.
    + intros -> Hlt. apply Hfail. cbn. lia.
Qed.

(** ** Records and spaces *)

Lemma space_name_of_not_empty (space : IfcSpace) : space_name_of space <> "".
Proof.
  unfold space_name_of.
  destruct (Name space) as [n|]; [|discriminate].
  destruct (String.eqb_spec n ""); [discriminate|assumption].
Qed.

(** X1: records come in the order of the spaces: the record at the position
    of a space carries its GlobalId and LongName as they are, and as name
    its Name, or the label "Space #<id>" when the Name is missing or empty;
    the name of a record is never empty. *)
Theorem X1_records_follow_spaces (kwargs : dict) (model : ifc_file)
    (out : list result_dict) (i : nat) (space : IfcSpace) :
  returned kwargs model = Return out ->
  nth_error (spaces_of model) i = Some space ->
  exists r,
    nth_error out i = Some r /\
    element_id r = GlobalId space /\
    element_name_long r = LongName space /\
    element_name r <> "" /\
    (forall n, Name space = Some n -> n <> "" -> element_name r = n) /\
    (Name space = None \/ Name space = Some "" ->
     element_name r = "Space #" ++ int_str (space_step_id space)).
Proof.
  intros Hout Hi.
  destruct (record_of_space _ _ _ _ _ Hout Hi) as (r & Hr & Hd).
  destruct Hd as (Hid & _ & Hname & Hlong & _).
  exists r. split; [exact Hr|]. split; [exact Hid|]. split; [exact Hlong|].
  rewrite Hname. split; [apply space_name_of_not_empty|].
  unfold space_name_of. split.
  - intros n -> Hn. destruct (String.eqb_spec n ""); [contradiction|reflexivity].
  - intros [-> | ->]; reflexivity.
Qed.

(** ** Which key supplies the height *)

Lemma scan_properties_None (props : dict) :
  scan_properties props None = None <->
  Forall (fun kv => qualifies kv = false) props.
Proof.
  induction props as [|[k v] rest IH]; cbn [scan_properties].
  - split; [constructor|reflexivity].
  - unfold qualifies at 1.
    destruct (contains "height" (lower k)) eqn:Ek;
      [destruct (as_number v) as [n|] eqn:Ev|].
    + split; [discriminate|].
      intros H. inversion H as [|? ? Hq _]; subst.
      unfold qualifies in Hq; cbn [fst snd] in Hq. rewrite Ek, Ev in Hq. discriminate.
    + rewrite IH. split.
      * intros H. constructor; [|exact H].
        unfold qualifies; cbn [fst snd]. rewrite Ek, Ev. reflexivity.
      * intros H. inversion H; assumption.
    + rewrite IH. split.
      * intros H. constructor; [|exact H].
        unfold qualifies; cbn [fst snd]. rewrite Ek. reflexivity.
      * intros H. inversion H; assumption.
Qed.

Lemma scan_properties_split (props : dict) (h : pynum) :
  scan_properties props None = Some h ->
  exists p1 k v p2,
    props = (p1 ++ (k, v) :: p2)%list /\
    Forall (fun kv => qualifies kv = false) p1 /\
    contains "height" (lower k) = true /\
    as_number v = Some h.
Proof.
  induction props as [|[k v] rest IH]; cbn [scan_properties]; [discriminate|].
  destruct (contains "height" (lower k)) eqn:Ek;
    [destruct (as_number v) as [n|] eqn:Ev|].
  - intros H; injection H as <-. exists [], k, v, rest. repeat split; [constructor|assumption..].
  - intros H. destruct (IH H) as (p1 & k' & v' & p2 & -> & Hp1 & Hk & Hv).
    exists ((k, v) :: p1), k', v', p2. repeat split; [|assumption..].
    constructor; [|exact Hp1]. unfold qualifies; cbn [fst snd]. rewrite Ek, Ev. reflexivity.
  - intros H. destruct (IH H) as (p1 & k' & v' & p2 & -> & Hp1 & Hk & Hv).
    exists ((k, v) :: p1), k', v', p2. repeat split; [|assumption..].
    constructor; [|exact Hp1]. unfold qualifies; cbn [fst snd]. rewrite Ek. reflexivity.
Qed.

Lemma discover_height_None (psets : list (string * dict)) :
  discover_height psets None = None <->
  Forall (fun group => Forall (fun kv => qualifies kv = false) (snd group)) psets.
Proof.
  induction psets as [|group rest IH] using rev_ind.
  - split; [constructor|reflexivity].
  - rewrite discover_height_snoc, Forall_app.
    destruct (scan_properties (snd group) None) as [h|] eqn:E.
    + split; [discriminate|]. intros [_ H]. inversion H as [|? ? Hg _]; subst.
      apply scan_properties_None in Hg. rewrite <- E. exact Hg.
    + rewrite IH. split.
      * intros H. split; [exact H|]. constructor; [|constructor].
        apply scan_properties_None, E.
      * intros [H _]. exact H.
Qed.

(** X2: the record of a space has status warning exactly when no key of any
    of its property groups both contains "height" (case-insensitive) and
    holds an int, a float or a bool; whether the text of a group mentions
    "height" elsewhere plays no part. *)
Theorem X2_warning_iff_no_usable_key (kwargs : dict) (model : ifc_file)
    (out : list result_dict) (i : nat) (space : IfcSpace) :
  returned kwargs model = Return out ->
  nth_error (spaces_of model) i = Some space ->
  exists r,
    nth_error out i = Some r /\
    (check_status r = "warning" <->
     forall group k v,
       In group (get_psets space) -> In (k, v) (snd group) ->
       contains "height" (lower k) = true -> as_number v = None).
Proof.
  intros Hout Hi.
  destruct (record_of_space _ _ _ _ _ Hout Hi) as (r & Hr & Hd).
  exists r. split; [exact Hr|].
  assert (Hnone : discover_height (get_psets space) None = None <->
                  forall group k v,
                    In group (get_psets space) -> In (k, v) (snd group) ->
                    contains "height" (lower k) = true -> as_number v = None).
  { rewrite discover_height_None, Forall_forall. split.
    - intros H group k v Hg Hkv Hk.
      specialize (H group Hg). rewrite Forall_forall in H. specialize (H (k, v) Hkv).
      unfold qualifies in H; cbn [fst snd] in H. rewrite Hk in H.
      destruct (as_number v); [discriminate|reflexivity].
    - intros H group Hg. apply Forall_forall. intros [k v] Hkv.
      unfold qualifies; cbn [fst snd].
      destruct (contains "height" (lower k)) eqn:Ek; [|reflexivity].
      rewrite (H group k v Hg Hkv Ek). reflexivity. }
  rewrite <- Hnone.
  destruct Hd as (_ & _ & _ & _ & _ & _ & Hd).
  destruct (discover_height (get_psets space) None) as [h|].
  - destruct Hd as (shown & _ & _ & [(_ & Hs & _)|(_ & Hs & _)]); rewrite Hs;
      split; discriminate.
  - destruct Hd as (Hs & _). rewrite Hs. split; reflexivity.
Qed.

(** X3: the discovered height of a space is the value of the first usable
    key (one that contains "height" and holds an int, a float or a bool) of
    the last property group that has a usable key. *)
Theorem X3_height_of_last_usable_group (psets : list (string * dict)) (h : pynum) :
  discover_height psets None = Some h <->
  exists before gname p1 k v p2 after,
    psets = (before ++ (gname, p1 ++ (k, v) :: p2) :: after)%list /\
    Forall (fun kv => qualifies kv = false) p1 /\
    contains "height" (lower k) = true /\
    as_number v = Some h /\
    Forall (fun group => Forall (fun kv => qualifies kv = false) (snd group)) after.
Proof.
  split.
  - induction psets as [|[gname props] rest IH] using rev_ind; [discriminate|].
    rewrite discover_height_snoc. cbn [snd].
    destruct (scan_properties props None) as [h'|] eqn:E.
    + intros H; injection H as ->.
      destruct (scan_properties_split _ _ E) as (p1 & k & v & p2 & -> & Hp1 & Hk & Hv).
      exists rest, gname, p1, k, v, p2, []. repeat split; try assumption. constructor.
    + intros H.
      destruct (IH H) as (before & g0 & p1 & k & v & p2 & after & -> & Hp1 & Hk & Hv & Ha).
      exists before, g0, p1, k, v, p2, (after ++ [(gname, props)])%list.
      rewrite <- app_assoc. cbn [app]. repeat split; try assumption.
      apply Forall_app. split; [exact Ha|]. constructor; [|constructor].
      apply scan_properties_None, E.
  - intros (before & gname & p1 & k & v & p2 & after & -> & Hp1 & Hk & Hv & Ha).
    apply discover_height_supplied.
    + apply (key_in_group_text "height" k v); [reflexivity|apply in_elt|exact Hk].
    + apply scan_properties_first; assumption.
    + apply discover_height_None, Ha.
Qed.

(** ** What a record shows of an integer height *)

Lemma int_str_sign (z : Z) :
  (if (z <? 0)%Z then "-" else "") ++ int_str (Z.abs z) = int_str z.
Proof. destruct z; reflexivity. Qed.

(** X5: for a space whose discovered height is an int below 2^53 in
    absolute value, the actual value of its record is the decimal text of
    that int followed by "mm", whether the record passes or fails. *)
Theorem X5_actual_value_of_int_height (kwargs : dict) (model : ifc_file)
    (out : list result_dict) (i : nat) (space : IfcSpace) (z : Z) :
  returned kwargs model = Return out ->
  nth_error (spaces_of model) i = Some space ->
  discover_height (get_psets space) None = Some (NumInt z) ->
  (Z.abs z < 2 ^ 53)%Z ->
  exists r,
    nth_error out i = Some r /\
    actual_value r = int_str z ++ "mm" /\
    (check_status r = "pass" \/ check_status r = "fail").
Proof.
  intros Hout Hi Hh Hz.
  destruct (record_of_space _ _ _ _ _ Hout Hi) as (r & Hr & Hd).
  exists r. split; [exact Hr|].
  destruct Hd as (_ & _ & _ & _ & _ & _ & Hd). rewrite Hh in Hd.
  destruct Hd as (shown & Hshown & Hactual & Hcase).
  cbn [fmt0f] in Hshown. rewrite (int_fmt0f_small z Hz), int_str_sign in Hshown.
  injection Hshown as <-. split; [exact Hactual|].
  destruct Hcase as [(_ & Hs & _)|(_ & Hs & _)]; auto.
Qed.

(** ** Exceptions *)

Local Open Scope Z_scope.

(** The conversion of an int to a float overflows from 2^1024 - 2^970 on:
    below, the nearest binary64 value is finite. *)
Lemma round_double_overflow (n : Z) :
  0 <= n -> (2 ^ 1024 <= round_double n <-> 2 ^ 1024 - 2 ^ 970 <= n).
Proof.
  intros Hn. unfold round_double.
  assert (H53 : 2 ^ 53 < 2 ^ 1024 - 2 ^ 970).
  { assert (2 ^ 970 < 2 ^ 1023) by (apply Z.pow_lt_mono_r; lia).
    assert (2 ^ 53 < 2 ^ 1023) by (apply Z.pow_lt_mono_r; lia).
    replace (2 ^ 1024) with (2 * 2 ^ 1023) by (rewrite <- Z.pow_succ_r; [reflexivity|lia]).
    lia. }
  destruct (Z.leb_spec (Z.log2 n + 1) 53) as [Hb|Hb].
  - assert (n < 2 ^ 53).
    { destruct (Z.eq_dec n 0) as [->|]; [apply Z.pow_pos_nonneg; lia|].
      apply Z.log2_lt_pow2; lia. }
    assert (2 ^ 53 < 2 ^ 1024) by (apply Z.pow_lt_mono_r; lia).
    lia.
  - assert (Hpos : 0 < n).
    { destruct (Z.eq_dec n 0) as [->|]; [cbn in Hb; lia|lia]. }
    set (L := Z.log2 n) in *.
    set (k := L + 1 - 53).
    assert (Hk : 1 <= k) by (unfold k; lia).
    destruct (Z.log2_spec n Hpos) as [Hlo Hhi]. fold L in Hlo, Hhi.
    rewrite Z.shiftr_div_pow2 by lia.
    rewrite !Z.shiftl_mul_pow2 by lia.
    set (P := 2 ^ k).
    assert (HP : 0 < P) by (apply Z.pow_pos_nonneg; lia).
    set (q := n / P).
    assert (Hdiv : n = P * q + n mod P) by (apply Z.div_mod; lia).
    pose proof (Z.mod_pos_bound n P HP) as Hr.
    set (r := n mod P) in *.
    replace (n - q * P) with r by lia.
    assert (HL : 2 ^ L = 2 ^ 52 * P).
    { unfold P. rewrite <- Z.pow_add_r by lia. f_equal. unfold k. lia. }
    assert (HL1 : 2 ^ (Z.succ L) = 2 ^ 53 * P).
    { unfold P. rewrite <- Z.pow_add_r by lia. f_equal. unfold k. lia. }
    assert (Hq : 2 ^ 52 <= q < 2 ^ 53).
    { split.
      - apply Z.div_le_lower_bound; lia.
      - apply Z.div_lt_upper_bound; lia. }
    assert (Hhalf : 2 * (1 * 2 ^ (k - 1)) = P).
    { unfold P. replace k with (Z.succ (k - 1)) at 2 by lia.
      rewrite Z.pow_succ_r by lia. lia. }
    set (half := 1 * 2 ^ (k - 1)) in *.
    set (q' := if (half <? r) || (r =? half) && Z.odd q then q + 1 else q).
    assert (Hq' : q <= q' <= q + 1).
    { unfold q'. destruct ((half <? r) || (r =? half) && Z.odd q); lia. }
    assert (E52 : 2 ^ 53 = 2 * 2 ^ 52) by (rewrite <- Z.pow_succ_r; [reflexivity|lia]).
    destruct (Z_lt_le_dec L 1023) as [Hs|Hs]; [|destruct (Z.eq_dec L 1023) as [E|]].
    + (* n < 2^1023 *)
      assert (2 ^ (Z.succ L) <= 2 ^ 1023) by (apply Z.pow_le_mono_r; lia).
      assert (2 ^ 970 < 2 ^ 1023) by (apply Z.pow_lt_mono_r; lia).
      assert (E24 : 2 ^ 1024 = 2 * 2 ^ 1023) by (rewrite <- Z.pow_succ_r; [reflexivity|lia]).
      assert (q' * P <= 2 ^ 53 * P) by (apply Z.mul_le_mono_nonneg_r; lia).
      split; intros; lia.
    + (* L = 1023, k = 971 *)
      assert (Ek : k = 971) by (unfold k; lia).
      assert (E71 : P = 2 * 2 ^ 970).
      { unfold P. rewrite Ek. rewrite <- Z.pow_succ_r; [reflexivity|lia]. }
      assert (Eh : half = 2 ^ 970) by lia.
      assert (E24 : 2 ^ 1024 = 2 ^ 53 * P).
      { rewrite <- HL1. f_equal. lia. }
      assert (Hp970 : 0 < 2 ^ 970) by (apply Z.pow_pos_nonneg; lia).
      split.
      * intros Hge.
        assert (q' = 2 ^ 53) by nia.
        assert (Hq1 : q = 2 ^ 53 - 1) by lia.
        unfold q' in H.
        destruct (Z.ltb_spec half r) as [Hlt|Hle]; cbn [orb] in H.
        -- nia.
        -- destruct (Z.eqb_spec r half) as [Er|Er]; cbn [andb] in H; [|lia].
           destruct (Z.odd q); [|lia]. nia.
      * intros Hge.
        assert (Hq1 : q = 2 ^ 53 - 1) by nia.
        assert (Hrr : half <= r) by nia.
        assert (Hodd : Z.odd q = true) by (rewrite Hq1; reflexivity).
        assert (q' = q + 1).
        { unfold q'. rewrite Hodd.
          destruct (Z.ltb_spec half r); cbn [orb]; [reflexivity|].
          destruct (Z.eqb_spec r half); cbn [andb]; [reflexivity|lia]. }
        nia.
    + (* L >= 1024 *)
      assert (2 ^ 1024 <= 2 ^ L) by (apply Z.pow_le_mono_r; lia).
      assert (q * P <= q' * P) by (apply Z.mul_le_mono_nonneg_r; lia).
      assert (2 ^ 52 * P <= q * P) by (apply Z.mul_le_mono_nonneg_r; lia).
      assert (0 < 2 ^ 970) by (apply Z.pow_pos_nonneg; lia).
      split; intros; lia.
Qed.

Local Close Scope Z_scope.

Lemma int_fmt0f_overflow (z : Z) :
  int_fmt0f z = Raise OverflowError <-> (2 ^ 1024 - 2 ^ 970 <= Z.abs z)%Z.
Proof.
  rewrite <- (round_double_overflow (Z.abs z) (Z.abs_nonneg z)).
  unfold int_fmt0f.
  destruct (Z.leb_spec (2 ^ 1024) (round_double (Z.abs z))) as [Hc|Hc];
    split; intros H; try reflexivity; try discriminate; try assumption; lia.
Qed.

Lemma check_space_raise (R C : pyval) (space : IfcSpace) (st : loop_state) (e : exn) :
  check_space R C space st = Raise e <-> space_exn R C space = Some e.
Proof.
  unfold check_space, space_exn, required_height_of.
  destruct (discover_height (get_psets space) None) as [h|]; cbn [obind].
  - destruct (ge h _) as [b|e']; cbn [obind].
    + destruct (fmt0f h) as [shown|e']; cbn [obind].
      * destruct b; cbn [obind]; split; discriminate.
      * split; intros H; injection H as <-; reflexivity.
    + split; intros H; injection H as <-; reflexivity.
  - split; discriminate.
Qed.

Lemma space_ok_exn (R C : pyval) (space : IfcSpace) :
  space_ok R C space = true <-> space_exn R C space = None.
Proof.
  unfold space_ok, space_exn.
  destruct (discover_height (get_psets space) None) as [h|]; [|split; reflexivity].
  destruct (ge h _); [|split; discriminate].
  destruct (fmt0f h); split; (reflexivity || discriminate).
Qed.

Lemma check_spaces_raise (R C : pyval) (spaces : list IfcSpace) (e : exn) :
  forall st,
    check_spaces R C spaces st = Raise e <->
    exists l1 space l2,
      spaces = (l1 ++ space :: l2)%list /\
      forallb (space_ok R C) l1 = true /\
      space_exn R C space = Some e.
Proof.
  induction spaces as [|space rest IH]; intros st; cbn [check_spaces].
  - split; [discriminate|]. intros (l1 & sp & l2 & H & _). destruct l1; discriminate.
  - destruct (check_space R C space st) as [st1|e1] eqn:E1; cbn [obind].
    + assert (Hok : space_ok R C space = true) by (apply (check_space_ok R C space st); eauto).
      rewrite IH. split.
      * intros (l1 & sp & l2 & -> & Hl1 & Hsp).
        exists (space :: l1), sp, l2. cbn [forallb app]. rewrite Hok, Hl1. auto.
      * intros (l1 & sp & l2 & Heq & Hl1 & Hsp).
        destruct l1 as [|s0 l1]; cbn [app] in Heq; injection Heq as <- ->.
        -- apply space_ok_exn in Hok. rewrite Hok in Hsp. discriminate.
        -- cbn [forallb] in Hl1. apply andb_true_iff in Hl1.
           exists l1, sp, l2. repeat split; [apply Hl1|exact Hsp].
    + apply check_space_raise in E1. split.
      * intros H; injection H as <-. exists [], space, rest. auto.
      * intros (l1 & sp & l2 & Heq & Hl1 & Hsp).
        destruct l1 as [|s0 l1]; cbn [app] in Heq; injection Heq as <- ->.
        -- rewrite E1 in Hsp. injection Hsp as <-. reflexivity.
        -- cbn [forallb] in Hl1. apply andb_true_iff in Hl1. destruct Hl1 as [Hs0 _].
           apply space_ok_exn in Hs0. rewrite Hs0 in E1. discriminate.
Qed.

Lemma returned_raise (kwargs : dict) (model : ifc_file) (e : exn) :
  returned kwargs model = Raise e <->
  check_spaces (residential_min kwargs) (commercial_min kwargs) (spaces_of model)
    {| results := []; passed_count := 0; failed_count := 0; warning_count := 0 |}
  = Raise e.
Proof.
  rewrite returned_unfold.
  destruct (spaces_of model) as [|space rest]; [split; discriminate|].
  destruct (check_spaces _ _ _ _); cbn [obind]; split;
    (discriminate || (intros H; injection H as <-; reflexivity)).
Qed.

(** X6: on printable inputs, a call raises the exception of the first
    space, in model order, whose check raises: [e] is raised exactly when
    the spaces split into spaces whose checks go through, a space whose
    check raises [e] (a TypeError of the comparison before an OverflowError
    of the formatting), and the remaining spaces, which are not looked
    at. *)
Theorem X6_first_failure_is_raised (kwargs : dict) (model : ifc_file) (e : exn) :
  printable kwargs model = true ->
  (returned kwargs model = Raise e <->
   exists l1 space l2,
     spaces_of model = (l1 ++ space :: l2)%list /\
     forallb (space_ok (residential_min kwargs) (commercial_min kwargs)) l1 = true /\
     space_exn (residential_min kwargs) (commercial_min kwargs) space = Some e).
Proof. intros _. rewrite returned_raise. apply check_spaces_raise. Qed.

(** X7: on printable inputs, a call raises only on account of a space with
    a discovered height:
    TypeError when the threshold that applies to that space is not a number,
    OverflowError when the threshold is a number and the height is an int of
    absolute value 2^1024 - 2^970 or more, which the ['.0f'] format cannot
    convert to a float. With numeric thresholds a call never raises
    TypeError. *)
Theorem X7_causes_of_exceptions (kwargs : dict) (model : ifc_file) (e : exn) :
  printable kwargs model = true ->
  returned kwargs model = Raise e ->
  (exists space h,
     In space (spaces_of model) /\
     discover_height (get_psets space) None = Some h /\
     let required :=
       required_height_of (residential_min kwargs) (commercial_min kwargs) space in
     ((e = TypeError /\ as_number required = None)
      \/
      (e = OverflowError /\ as_number required <> None /\
       exists z, h = NumInt z /\ (2 ^ 1024 - 2 ^ 970 <= Z.abs z)%Z)))
  /\
  (as_number (residential_min kwargs) <> None ->
   as_number (commercial_min kwargs) <> None ->
   e = OverflowError).
Proof.
  intros _ Hraise.
  apply returned_raise, check_spaces_raise in Hraise.
  destruct Hraise as (l1 & space & l2 & Heq & _ & Hexn).
  assert (Hin : In space (spaces_of model)) by (rewrite Heq; apply in_elt).
  unfold space_exn in Hexn.
  destruct (discover_height (get_psets space) None) as [h|] eqn:Eh; [|discriminate].
  unfold ge in Hexn.
  destruct (as_number (required_height_of _ _ space)) as [t|] eqn:Et.
  - destruct (fmt0f h) as [shown|e'] eqn:Ef; [discriminate|].
    injection Hexn as ->.
    destruct h as [z|x]; cbn [fmt0f] in Ef; [|discriminate].
    assert (He : e = OverflowError).
    { unfold int_fmt0f in Ef. destruct (2 ^ 1024 <=? _)%Z; [|discriminate].
      injection Ef as <-. reflexivity. }
    subst e. split.
    + exists space, (NumInt z). split; [exact Hin|]. split; [exact Eh|].
      cbv zeta. right. split; [reflexivity|]. rewrite Et. split; [discriminate|].
      exists z. split; [reflexivity|]. apply int_fmt0f_overflow. exact Ef.
    + reflexivity.
  - injection Hexn as <-. split.
    + exists space, h. split; [exact Hin|]. split; [exact Eh|].
      cbv zeta. left. split; [reflexivity|exact Et].
    + intros HR HC. unfold required_height_of in Et.
      destruct (classify _ _); contradiction.
Qed.

(** X8: when no space of a model has a usable height key, the call returns
    on all printable inputs, thresholds that are not numbers included: every
    space gets a warning, and the summary still has status pass, with actual
    value "0 pass, 0 fail, N warning". *)
Theorem X8_no_height_never_raises (kwargs : dict) (model : ifc_file) :
  printable kwargs model = true ->
  spaces_of model <> [] ->
  (forall space, In space (spaces_of model) ->
                 discover_height (get_psets space) None = None) ->
  exists out,
    returned kwargs model = Return out /\
    Forall (fun r => check_status r = "warning") (non_summary out) /\
    check_status (last_record out) = "pass" /\
    actual_value (last_record out) =
      "0 pass, 0 fail, " ++ nat_str (List.length (spaces_of model)) ++ " warning".
Proof.
  intros _ Hne Hnone.
  assert (Hok : forallb (space_ok (residential_min kwargs) (commercial_min kwargs))
                  (spaces_of model) = true).
  { apply forallb_forall. intros space Hin. unfold space_ok.
    rewrite (Hnone space Hin). reflexivity. }
  apply returned_ok in Hok. destruct Hok as [out Hout].
  exists out. split; [exact Hout|].
  destruct (returned_inv _ _ _ Hne Hout) as (rs & st & Hrs & -> & Hp & Hf & Hw).
  destruct (described_non_summary _ _ _ _ _ Hrs
              (summary_kind (List.length (spaces_of model)) st)) as [-> ->].
  assert (Hall : Forall (fun r => check_status r = "warning") rs).
  { clear - Hrs Hnone.
    induction Hrs as [|space r spaces rs Hr _ IH]; constructor.
    - destruct Hr as (_ & _ & _ & _ & _ & _ & Hr).
      rewrite (Hnone space (or_introl eq_refl)) in Hr. apply Hr.
    - apply IH. intros sp Hin. apply Hnone. right. exact Hin. }
  assert (Hcount : forall s, s <> "warning" -> count_status s rs = 0%nat).
  { intros s Hs. clear - Hall Hs. unfold count_status.
    induction Hall as [|r rs Hr _ IH]; [reflexivity|].
    cbn [filter]. rewrite Hr.
    destruct (String.eqb_spec "warning" s) as [E|_]; [symmetry in E; contradiction|exact IH]. }
  pose proof (described_counts _ _ _ _ Hrs) as Htotal.
  rewrite (Hcount "pass"), (Hcount "fail") in Htotal by discriminate.
  split; [exact Hall|].
  unfold summary_record; cbn [check_status actual_value].
  rewrite Hp, Hf, Hw, (Hcount "pass"), (Hcount "fail") by discriminate.
  cbn [Nat.add] in Htotal. rewrite Htotal. split; reflexivity.
Qed.

(** X9: on printable inputs with numeric thresholds, a call returns
    exactly when every discovered int height is below 2^1024 - 2^970 in
    absolute value; float heights never make it raise. *)
Theorem X9_returns_iff_heights_convertible (kwargs : dict) (model : ifc_file) :
  printable kwargs model = true ->
  as_number (residential_min kwargs) <> None ->
  as_number (commercial_min kwargs) <> None ->
  ((exists out, returned kwargs model = Return out) <->
   forall space z,
     In space (spaces_of model) ->
     discover_height (get_psets space) None = Some (NumInt z) ->
     (Z.abs z < 2 ^ 1024 - 2 ^ 970)%Z).
Proof.
  intros _ HR HC. rewrite returned_ok, forallb_forall.
  assert (Hsp : forall space,
             space_ok (residential_min kwargs) (commercial_min kwargs) space = true <->
             forall z, discover_height (get_psets space) None = Some (NumInt z) ->
                       (Z.abs z < 2 ^ 1024 - 2 ^ 970)%Z).
  { intros space. unfold space_ok, ge.
    destruct (discover_height (get_psets space) None) as [[z|x]|].
    - assert (Hnum : as_number (required_height_of (residential_min kwargs)
                                  (commercial_min kwargs) space) <> None)
        by (unfold required_height_of; destruct (classify _ _); assumption).
      destruct (as_number (required_height_of _ _ space)); [|contradiction].
      cbn [fmt0f].
      destruct (int_fmt0f z) as [shown|e] eqn:Ef.
      + split; [|reflexivity]. intros _ z' Hz'. injection Hz' as <-.
        destruct (Z.lt_ge_cases (Z.abs z) (2 ^ 1024 - 2 ^ 970)) as [Hlt|Hge]; [exact Hlt|].
        apply (int_fmt0f_overflow z) in Hge. rewrite Ef in Hge. discriminate.
      + split; [discriminate|]. intros H. specialize (H z eq_refl).
        assert (e = OverflowError).
        { unfold int_fmt0f in Ef. destruct (2 ^ 1024 <=? _)%Z; [|discriminate].
          injection Ef as <-. reflexivity. }
        subst e. apply (int_fmt0f_overflow z) in Ef. lia.
    - assert (Hnum : as_number (required_height_of (residential_min kwargs)
                                  (commercial_min kwargs) space) <> None)
        by (unfold required_height_of; destruct (classify _ _); assumption).
      destruct (as_number (required_height_of _ _ space)); [|contradiction].
      cbn [fmt0f]. split; [discriminate|reflexivity].
    - split; [discriminate|reflexivity]. }
  split.
  - intros H space z Hin. apply Hsp, H, Hin.
  - intros H space Hin. apply Hsp. intros z. apply H, Hin.
Qed.

(** ** Spaces are checked one by one *)

Lemma describes_unique (R C : pyval) (space : IfcSpace) (r r' : result_dict) :
  describes R C space r -> describes R C space r' -> r = r'.
Proof.
  intros (H1 & H2 & H3 & H4 & H5 & H6 & H7) (H1' & H2' & H3' & H4' & H5' & H6' & H7').
  assert (Hrest : check_status r = check_status r' /\
                  actual_value r = actual_value r' /\
                  comment r = comment r').
  { destruct (discover_height (get_psets space) None) as [h|].
    - destruct H7 as (shown & Hs & Ha & Hc). destruct H7' as (shown' & Hs' & Ha' & Hc').
      assert (shown' = shown) by congruence. subst shown'.
      destruct Hc as [(Hg & Hst & Hco)|(Hg & Hst & Hco)];
        destruct Hc' as [(Hg' & Hst' & Hco')|(Hg' & Hst' & Hco')];
        try (rewrite Hg in Hg'; discriminate);
        repeat split; congruence.
    - destruct H7 as (Hst & Ha & Hco). destruct H7' as (Hst' & Ha' & Hco').
      repeat split; congruence. }
  destruct Hrest as (Hst & Ha & Hco).
  destruct r, r'; cbn in *. congruence.
Qed.

Lemma described_unique (R C : pyval) (spaces : list IfcSpace) :
  forall rs rs',
    Forall2 (describes R C) spaces rs -> Forall2 (describes R C) spaces rs' -> rs = rs'.
Proof.
  induction spaces as [|space rest IH]; intros rs rs' H H';
    inversion H; inversion H'; subst; [reflexivity|].
  f_equal; [eapply describes_unique; eassumption|apply IH; assumption].
Qed.

(** The records of the spaces in a returned sequence. *)
Lemma returned_records (kwargs : dict) (model : ifc_file) (out : list result_dict) :
  returned kwargs model = Return out ->
  Forall2 (describes (residential_min kwargs) (commercial_min kwargs))
    (spaces_of model) (non_summary out).
Proof.
  intros Hout. destruct (spaces_of model) as [|space rest] eqn:E.
  - rewrite returned_unfold, E in Hout. injection Hout as <-. constructor.
  - assert (Hne : spaces_of model <> []) by (rewrite E; discriminate).
    destruct (returned_inv _ _ _ Hne Hout) as (rs & st & Hrs & -> & _).
    destruct (described_non_summary _ _ _ _ _ Hrs
                (summary_kind (List.length (spaces_of model)) st)) as [-> _].
    rewrite <- E. exact Hrs.
Qed.

(** X10: the records of a model are those of its parts: when the spaces of
    a model are those of a first model followed by those of a second one,
    and the calls on both return, the call on the whole returns, and its
    space records are the space records of the first followed by those of
    the second; the record of a space depends on no other space. *)
Theorem X10_records_compose (kwargs : dict) (model1 model2 model : ifc_file)
    (out1 out2 : list result_dict) :
  spaces_of model = (spaces_of model1 ++ spaces_of model2)%list ->
  returned kwargs model1 = Return out1 ->
  returned kwargs model2 = Return out2 ->
  exists out,
    returned kwargs model = Return out /\
    non_summary out = (non_summary out1 ++ non_summary out2)%list.
Proof.
  intros Hsp H1 H2.
  assert (Hok : forallb (space_ok (residential_min kwargs) (commercial_min kwargs))
                  (spaces_of model) = true).
  { rewrite Hsp, forallb_app. apply andb_true_iff. split; apply returned_ok; eauto. }
  apply returned_ok in Hok. destruct Hok as [out Hout].
  exists out. split; [exact Hout|].
  pose proof (returned_records _ _ _ Hout) as Hrs. rewrite Hsp in Hrs.
  apply (described_unique _ _ _ _ _ Hrs).
  apply Forall2_app; apply returned_records; assumption.
Qed.

(** X11: once a call raises, more spaces after those of the model do not
    change that: the call on the longer model raises the same exception. *)
Theorem X11_raise_is_kept (kwargs : dict) (model1 model : ifc_file)
    (more : list IfcSpace) (e : exn) :
  returned kwargs model1 = Raise e ->
  spaces_of model = (spaces_of model1 ++ more)%list ->
  returned kwargs model = Raise e.
Proof.
  intros Hraise Hsp.
  apply returned_raise, check_spaces_raise in Hraise.
  destruct Hraise as (l1 & space & l2 & Heq & Hl1 & Hexn).
  apply returned_raise, check_spaces_raise.
  exists l1, space, (l2 ++ more)%list. rewrite Hsp, Heq, <- app_assoc.
  repeat split; assumption.
Qed.

(** ** Options *)

(** X12: an option other than "residential_min_height" and
    "commercial_min_height" is ignored, whatever its name and value. *)
Theorem X12_other_options_ignored (kwargs : dict) (model : ifc_file)
    (k : string) (v : pyval) :
  k <> "residential_min_height" ->
  k <> "commercial_min_height" ->
  returned ((k, v) :: kwargs) model = returned kwargs model.
Proof.
  intros Hr Hc. apply returned_thresholds.
  - unfold residential_min; cbn [dict_get].
    destruct (String.eqb_spec "residential_min_height" k) as [E|_];
      [symmetry in E; contradiction|reflexivity].
  - unfold commercial_min; cbn [dict_get].
    destruct (String.eqb_spec "commercial_min_height" k) as [E|_];
      [symmetry in E; contradiction|reflexivity].
Qed.

Lemma check_space_required (R C R' C' : pyval) (space : IfcSpace) (st : loop_state) :
  required_height_of R C space = required_height_of R' C' space ->
  check_space R C space st = check_space R' C' space st.
Proof.
  unfold required_height_of, check_space. intros H. rewrite H. reflexivity.
Qed.

Lemma check_spaces_required (R C R' C' : pyval) (spaces : list IfcSpace) :
  (forall space, In space spaces ->
                 required_height_of R C space = required_height_of R' C' space) ->
  forall st, check_spaces R C spaces st = check_spaces R' C' spaces st.
Proof.
  induction spaces as [|space rest IH]; intros H st; cbn [check_spaces]; [reflexivity|].
  rewrite (check_space_required R C R' C' space st) by (apply H; left; reflexivity).
  destruct (check_space R' C' space st); cbn [obind]; [|reflexivity].
  apply IH. intros sp Hin. apply H. right. exact Hin.
Qed.

(** X13: a threshold matters only through the spaces of its use type: on a
    model without Residential space the residential threshold has no effect
    on what the call returns or raises, even when it is not a number, and
    likewise for the commercial threshold on a model without Commercial
    space. *)
Theorem X13_threshold_of_absent_use_type (kwargs kwargs' : dict) (model : ifc_file) :
  ((forall space, In space (spaces_of model) -> space_use_type space = "Commercial") ->
   commercial_min kwargs = commercial_min kwargs' ->
   returned kwargs model = returned kwargs' model)
  /\
  ((forall space, In space (spaces_of model) -> space_use_type space = "Residential") ->
   residential_min kwargs = residential_min kwargs' ->
   returned kwargs model = returned kwargs' model).
Proof.
  split; intros Hall Heq; rewrite !returned_unfold;
    rewrite (check_spaces_required (residential_min kwargs) (commercial_min kwargs)
               (residential_min kwargs') (commercial_min kwargs'));
    try reflexivity;
    intros space Hin; specialize (Hall space Hin);
    unfold space_use_type, use_type_of in Hall; unfold required_height_of;
    destruct (classify _ _); (discriminate || assumption).
Qed.

(** ** Where a residential keyword may stand *)

Lemma value_in_group_text (n k s : string) (props : dict) :
  letters n = true ->
  In (k, PStr s) props ->
  contains n (lower s) = true ->
  contains n (lower (str (PDict props))) = true.
Proof.
  intros Hn Hin Hs. cbn [str repr].
  assert (Hx : In (str_repr k ++ ": " ++ str_repr s)
                 (map (fun kv => str_repr (fst kv) ++ ": " ++ repr (snd kv)) props)).
  { apply (in_map (fun kv => str_repr (fst kv) ++ ": " ++ repr (snd kv)) props
             (k, PStr s) Hin). }
  destruct (concat_In ", " _ _ Hx) as (pre & post & E).
  rewrite E.
  change (contains n
            (lower ("{" ++ (pre ++ (str_repr k ++ ": " ++ str_repr s) ++ post) ++ "}"))
          = true).
  rewrite !lower_app.
  apply contains_app_r, contains_app_l, contains_app_r, contains_app_l,
    contains_app_r, contains_app_r.
  apply contains_lower_str_repr; assumption.
Qed.

(** X14: a space is Residential as soon as "residential" or "dwelling"
    occurs, in any letter case, in a key or in a text value of one of its
    property groups; its record is then held against the residential
    threshold, whatever its name. *)
Theorem X14_keyword_in_key_or_value (R C : pyval) (space : IfcSpace)
    (group : string * dict) (k w : string) (v : pyval) :
  In group (get_psets space) ->
  In (k, v) (snd group) ->
  w = "residential" \/ w = "dwelling" ->
  contains w (lower k) = true
  \/ (exists s, v = PStr s /\ contains w (lower s) = true) ->
  space_use_type space = "Residential" /\ required_height_of R C space = R.
Proof.
  intros Hg Hkv Hw Hocc.
  assert (Hl : letters w = true) by (destruct Hw as [-> | ->]; reflexivity).
  assert (Htext : contains w (lower (str (PDict (snd group)))) = true).
  { destruct Hocc as [Hk|(s0 & -> & Hs)].
    - exact (key_in_group_text w k v (snd group) Hl Hkv Hk).
    - exact (value_in_group_text w k s0 (snd group) Hl Hkv Hs). }
  assert (Hm : existsb mentions_residential (get_psets space) = true).
  { apply existsb_exists. exists group. split; [exact Hg|].
    unfold mentions_residential. apply orb_true_iff.
    destruct Hw as [-> | ->]; [left|right]; exact Htext. }
  unfold space_use_type, required_height_of.
  rewrite classify_spec, Hm. split; reflexivity.
Qed.

(** ** Thresholds compared *)

Lemma describes_monotone (R1 C1 R2 C2 : pyval) (space : IfcSpace)
    (ra rb : result_dict) (r1 c1 r2 c2 : Z) :
  R1 = PInt r1 -> C1 = PInt c1 -> R2 = PInt r2 -> C2 = PInt c2 ->
  (r1 <= r2)%Z -> (c1 <= c2)%Z ->
  (forall h, discover_height (get_psets space) None = Some h -> exists z, h = NumInt z) ->
  describes R1 C1 space ra -> describes R2 C2 space rb ->
  (check_status rb = "pass" -> check_status ra = "pass") /\
  (count_status "fail" [ra] <= count_status "fail" [rb])%nat.
Proof.
  intros -> -> -> -> Hr Hc Hint Ha Hb.
  destruct Ha as (_ & _ & _ & _ & _ & _ & Ha).
  destruct Hb as (_ & _ & _ & _ & _ & _ & Hb).
  unfold required_height_of in Ha, Hb.
  unfold count_status; cbn [filter].
  destruct (discover_height (get_psets space) None) as [h|].
  - destruct (Hint h eq_refl) as [z ->].
    destruct Ha as (sa & _ & _ & Ha). destruct Hb as (sb & _ & _ & Hb).
    unfold ge in Ha, Hb.
    destruct (classify _ _); cbn [as_number num_ge] in Ha, Hb;
      destruct Ha as [(Hga & Hsa & _)|(Hga & Hsa & _)];
      destruct Hb as [(Hgb & Hsb & _)|(Hgb & Hsb & _)];
      injection Hga as Hga; injection Hgb as Hgb;
      rewrite Hsa, Hsb; cbn; (split; [intros; (reflexivity || discriminate || lia)|lia]).
  - destruct Ha as (Hsa & _). destruct Hb as (Hsb & _). rewrite Hsa, Hsb. cbn.
    split; [discriminate|lia].
Qed.

Lemma described_monotone (R1 C1 R2 C2 : pyval) (r1 c1 r2 c2 : Z)
    (spaces : list IfcSpace) :
  R1 = PInt r1 -> C1 = PInt c1 -> R2 = PInt r2 -> C2 = PInt c2 ->
  (r1 <= r2)%Z -> (c1 <= c2)%Z ->
  (forall space h, In space spaces ->
                   discover_height (get_psets space) None = Some h ->
                   exists z, h = NumInt z) ->
  forall rsa rsb,
    Forall2 (describes R1 C1) spaces rsa ->
    Forall2 (describes R2 C2) spaces rsb ->
    (forall i ra rb, nth_error rsa i = Some ra -> nth_error rsb i = Some rb ->
                     check_status rb = "pass" -> check_status ra = "pass") /\
    (count_status "fail" rsa <= count_status "fail" rsb)%nat.
Proof.
  intros HR1 HC1 HR2 HC2 Hr Hc.
  induction spaces as [|space rest IH]; intros Hint rsa rsb Ha Hb;
    inversion Ha as [|? ra ? rsa' Hda Hfa]; inversion Hb as [|? rb ? rsb' Hdb Hfb]; subst.
  - split; [intros [|i] ? ?; discriminate|lia].
  - destruct (describes_monotone _ _ _ _ space ra rb r1 c1 r2 c2
                eq_refl eq_refl eq_refl eq_refl Hr Hc
                (fun h => Hint space h (or_introl eq_refl)) Hda Hdb) as [Hp Hf].
    destruct (IH (fun sp h Hin => Hint sp h (or_intror Hin)) rsa' rsb' Hfa Hfb)
      as [Hp' Hf'].
    split.
    + intros [|i] xa xb; cbn [nth_error].
      * intros E1 E2. injection E1 as <-. injection E2 as <-. exact Hp.
      * apply Hp'.
    + rewrite (count_status_cons "fail" ra), (count_status_cons "fail" rb). lia.
Qed.

(** X15: raising integer thresholds never turns a failing space into a
    passing one. On a model whose discovered heights are ints, for two calls
    with integer thresholds, those of the second at least those of the
    first: a space that passes in the second call passes in the first, the
    first call counts at most as many failures, and its summary passes
    whenever the summary of the second does. *)
Theorem X15_thresholds_monotone (kwargs1 kwargs2 : dict) (model : ifc_file)
    (out1 out2 : list result_dict) (r1 c1 r2 c2 : Z) :
  residential_min kwargs1 = PInt r1 -> commercial_min kwargs1 = PInt c1 ->
  residential_min kwargs2 = PInt r2 -> commercial_min kwargs2 = PInt c2 ->
  (r1 <= r2)%Z -> (c1 <= c2)%Z ->
  (forall space h, In space (spaces_of model) ->
                   discover_height (get_psets space) None = Some h ->
                   exists z, h = NumInt z) ->
  returned kwargs1 model = Return out1 ->
  returned kwargs2 model = Return out2 ->
  (forall i ra rb,
     nth_error (non_summary out1) i = Some ra ->
     nth_error (non_summary out2) i = Some rb ->
     check_status rb = "pass" -> check_status ra = "pass") /\
  (count_status "fail" (non_summary out1) <= count_status "fail" (non_summary out2))%nat /\
  (check_status (last_record out2) = "pass" -> check_status (last_record out1) = "pass").
Proof.
  intros HR1 HC1 HR2 HC2 Hr Hc Hint H1 H2.
  pose proof (returned_records _ _ _ H1) as Hrs1.
  pose proof (returned_records _ _ _ H2) as Hrs2.
  destruct (described_monotone _ _ _ _ r1 c1 r2 c2 (spaces_of model)
              HR1 HC1 HR2 HC2 Hr Hc Hint _ _ Hrs1 Hrs2) as [Hp Hf].
  split; [exact Hp|]. split; [exact Hf|].
  destruct (spaces_of model) as [|space rest] eqn:E.
  - rewrite returned_unfold, E in H1, H2.
    injection H1 as <-. injection H2 as <-. intros H; exact H.
  - assert (Hne : spaces_of model <> []) by (rewrite E; discriminate).
    destruct (returned_inv _ _ _ Hne H1) as (rs1 & st1 & Hd1 & -> & _ & Hf1 & _).
    destruct (returned_inv _ _ _ Hne H2) as (rs2 & st2 & Hd2 & -> & _ & Hf2 & _).
    destruct (described_non_summary _ _ _ _ _ Hd1
                (summary_kind (List.length (spaces_of model)) st1)) as [E1 ->].
    destruct (described_non_summary _ _ _ _ _ Hd2
                (summary_kind (List.length (spaces_of model)) st2)) as [E2 ->].
    rewrite E1, E2 in Hf.
    unfold summary_record; cbn [check_status]. rewrite Hf1, Hf2.
    destruct (count_status "fail" rs2) as [|n2]; cbn [Nat.eqb]; [|discriminate].
    destruct (count_status "fail" rs1) as [|n1]; cbn [Nat.eqb]; [reflexivity|lia].
Qed.

(** ** The summary *)

(** X16: a record of status log occurs in a returned sequence exactly when
    the model has no space. *)
Theorem X16_log_iff_no_space (kwargs : dict) (model : ifc_file)
    (out : list result_dict) :
  returned kwargs model = Return out ->
  ((exists r, In r out /\ check_status r = "log") <-> spaces_of model = []).
Proof.
  intros Hout. destruct (spaces_of model) as [|space rest] eqn:E.
  - rewrite returned_unfold, E in Hout. injection Hout as <-.
    split; [reflexivity|]. intros _. exists no_spaces_record. split; [left|]; reflexivity.
  - split; [|discriminate]. intros (r & Hin & Hs). exfalso.
    assert (Hne : spaces_of model <> []) by (rewrite E; discriminate).
    destruct (returned_inv _ _ _ Hne Hout) as (rs & st & Hrs & -> & _).
    apply in_app_or in Hin. destruct Hin as [Hin|[<-|[]]].
    + assert (Hall : Forall (fun r => check_status r <> "log") rs).
      { clear - Hrs. induction Hrs as [|sp x sps rs Hx _ IH]; constructor; [|exact IH].
        destruct (describes_status _ _ _ _ Hx) as [H|[H|H]]; rewrite H; discriminate. }
      rewrite Forall_forall in Hall. exact (Hall r Hin Hs).
    + unfold summary_record in Hs; cbn [check_status] in Hs.
      destruct (Nat.eqb _ _); discriminate.
Qed.

(** X17: the summary of a model with N >= 1 spaces names N in its required
    value, and its comment reports N and the same three counts as its
    actual value, those of the space records; it has no element id, no long
    name and no log text. *)
Theorem X17_summary_texts (kwargs : dict) (model : ifc_file) (out : list result_dict) :
  spaces_of model <> [] ->
  returned kwargs model = Return out ->
  let summary := last_record out in
  let n := nat_str (List.length (spaces_of model)) in
  let passed := nat_str (count_status "pass" (non_summary out)) in
  let failed := nat_str (count_status "fail" (non_summary out)) in
  let warned := nat_str (count_status "warning" (non_summary out)) in
  element_type summary = "Summary" /\
  element_id summary = None /\
  element_name summary = "Room Heights Check Summary" /\
  element_name_long summary = None /\
  log summary = None /\
  required_value summary = "All " ++ n ++ " spaces meet minimum height requirements" /\
  comment summary =
    Some ("Checked " ++ n ++ " space(s): " ++ passed ++ " compliant, "
            ++ failed ++ " non-compliant, " ++ warned ++ " with missing data").
Proof.
  intros Hne Hout.
  destruct (returned_inv _ _ _ Hne Hout) as (rs & st & Hrs & -> & Hp & Hf & Hw).
  destruct (described_non_summary _ _ _ _ _ Hrs
              (summary_kind (List.length (spaces_of model)) st)) as [-> ->].
  cbv zeta. unfold summary_record;
    cbn [element_type element_id element_name element_name_long log required_value comment].
  rewrite Hp, Hf, Hw. repeat split.
Qed.

Lemma described_warnings (R C : pyval) (spaces : list IfcSpace) (rs : list result_dict) :
  Forall2 (describes R C) spaces rs ->
  count_status "warning" rs = List.length (filter (fun s => negb (has_height s)) spaces).
Proof.
  induction 1 as [|space r spaces rs Hr _ IH]; [reflexivity|].
  rewrite (count_status_cons "warning"), IH. cbn [filter]. unfold has_height.
  destruct Hr as (_ & _ & _ & _ & _ & _ & Hr). unfold count_status; cbn [filter].
  destruct (discover_height (get_psets space) None) as [h|].
  - destruct Hr as (shown & _ & _ & [(_ & Hs & _)|(_ & Hs & _)]); rewrite Hs; reflexivity.
  - destruct Hr as (Hs & _). rewrite Hs. reflexivity.
Qed.

(** X18: the number of warning records is the number of spaces without a
    discovered height, and the pass and fail records together are as many
    as the spaces with one. *)
Theorem X18_warnings_count_missing_heights (kwargs : dict) (model : ifc_file)
    (out : list result_dict) :
  returned kwargs model = Return out ->
  count_status "warning" (non_summary out)
  = List.length (filter (fun s => negb (has_height s)) (spaces_of model)) /\
  (count_status "pass" (non_summary out) + count_status "fail" (non_summary out))%nat
  = List.length (filter has_height (spaces_of model)).
Proof.
  intros Hout. pose proof (returned_records _ _ _ Hout) as Hrs.
  pose proof (described_warnings _ _ _ _ Hrs) as Hw.
  pose proof (described_counts _ _ _ _ Hrs) as Ht.
  split; [exact Hw|].
  pose proof (filter_length has_height (spaces_of model)) as Hl.
  lia.
Qed.

(** ** The storey index *)

Lemma set_elevation_keys (index : list (Z * pyval)) (k : Z) (v : pyval) (k' : Z) :
  In k' (map fst (set_elevation index k v)) <-> k' = k \/ In k' (map fst index).
Proof.
  induction index as [|[k0 v0] t IH]; cbn [set_elevation map fst In].
  - intuition.
  - destruct (Z.eqb_spec k k0) as [->|Hne]; cbn [map fst In].
    + intuition.
    + rewrite IH. intuition.
Qed.

Lemma set_elevation_NoDup (index : list (Z * pyval)) (k : Z) (v : pyval) :
  NoDup (map fst index) -> NoDup (map fst (set_elevation index k v)).
Proof.
  induction index as [|[k0 v0] t IH]; cbn [set_elevation map fst]; intros H.
  - constructor; [intros []|constructor].
  - inversion H as [|? ? Hnot Ht]; subst.
    destruct (Z.eqb_spec k k0) as [->|Hne]; cbn [map fst].
    + constructor; assumption.
    + constructor; [|apply IH, Ht].
      rewrite set_elevation_keys. intros [E|Hin]; [congruence|contradiction].
Qed.

Lemma set_elevation_In (index : list (Z * pyval)) (k : Z) (v : pyval)
    (k' : Z) (v' : pyval) :
  In (k', v') (set_elevation index k v) -> (k' = k /\ v' = v) \/ In (k', v') index.
Proof.
  induction index as [|[k0 v0] t IH]; cbn [set_elevation In].
  - intros [E|[]]. injection E as <- <-. auto.
  - destruct (Z.eqb_spec k k0) as [->|Hne]; cbn [In].
    + intros [E|Hin]; [injection E as <- <-; auto|auto].
    + intros [E|Hin]; [auto|]. destruct (IH Hin); auto.
Qed.

Lemma set_elevation_new (index : list (Z * pyval)) (k : Z) (v : pyval) :
  In (k, v) (set_elevation index k v).
Proof.
  induction index as [|[k0 v0] t IH]; cbn [set_elevation]; [left; reflexivity|].
  destruct (Z.eqb_spec k k0); [left; reflexivity|right; exact IH].
Qed.

Lemma set_elevation_other (index : list (Z * pyval)) (k : Z) (v : pyval)
    (k' : Z) (v' : pyval) :
  k' <> k -> In (k', v') index -> In (k', v') (set_elevation index k v).
Proof.
  intros Hne. induction index as [|[k0 v0] t IH]; cbn [set_elevation In]; [intros []|].
  destruct (Z.eqb_spec k k0) as [->|Hk]; cbn [In].
  - intros [E|Hin]; [injection E as <- <-; contradiction|auto].
  - intros [E|Hin]; auto.
Qed.

Lemma keys_unique (index : list (Z * pyval)) (k : Z) (v v' : pyval) :
  NoDup (map fst index) -> In (k, v) index -> In (k, v') index -> v = v'.
Proof.
  induction index as [|[k0 v0] t IH]; cbn [map fst In]; [intros _ []|].
  intros Hnd [E|Hin] [E'|Hin'].
  - congruence.
  - injection E as -> ->. inversion Hnd as [|? ? Hnot _]; subst.
    elim Hnot. apply (in_map fst _ _ Hin').
  - injection E' as -> ->. inversion Hnd as [|? ? Hnot _]; subst.
    elim Hnot. apply (in_map fst _ _ Hin).
  - inversion Hnd; subst. apply IH; assumption.
Qed.

Lemma storey_index_fold (storeys : list IfcBuildingStorey) :
  forall acc,
    let index :=
      fold_left
        (fun storey_elevations storey =>
           match Elevation storey with
           | Some elevation =>
               set_elevation storey_elevations (storey_step_id storey) elevation
           | None => storey_elevations
           end) storeys acc in
    (NoDup (map fst acc) -> NoDup (map fst index)) /\
    (forall k v, In (k, v) index ->
                 In (k, v) acc \/
                 exists storey, In storey storeys /\ storey_step_id storey = k /\
                                Elevation storey = Some v) /\
    (forall k v, In (k, v) acc ->
                 (forall s, In s storeys -> storey_step_id s = k -> Elevation s = None) ->
                 In (k, v) index).
Proof.
  induction storeys as [|s rest IH]; intros acc; cbn [fold_left].
  - cbv zeta. repeat split; auto.
  - specialize (IH (match Elevation s with
                    | Some elevation => set_elevation acc (storey_step_id s) elevation
                    | None => acc
                    end)).
    cbv zeta in *. destruct IH as (IH1 & IH2 & IH3).
    split; [|split].
    + intros H. apply IH1. destruct (Elevation s); [apply set_elevation_NoDup|]; exact H.
    + intros k v Hin. destruct (IH2 k v Hin) as [Hacc|(st & Hst & Hid & He)].
      * destruct (Elevation s) as [e|] eqn:Ee; [|auto].
        destruct (set_elevation_In _ _ _ _ _ Hacc) as [[-> ->]|Hold]; [|auto].
        right. exists s. repeat split; [left; reflexivity|exact Ee].
      * right. exists st. repeat split; [right; exact Hst|assumption..].
    + intros k v Hin Hnone. apply IH3.
      * destruct (Elevation s) as [e|] eqn:Ee; [|exact Hin].
        apply set_elevation_other; [|exact Hin].
        intros ->. rewrite (Hnone s (or_introl eq_refl) eq_refl) in Ee. discriminate.
      * intros s' Hs'. apply Hnone. right. exact Hs'.
Qed.

(** X19: the storey elevation index has one entry per storey id that comes
    with an elevation: its keys are distinct, each entry is the id and the
    elevation of some storey, storeys without elevation add nothing, and
    the entry of an id holds the elevation of the last storey with that id
    that has one. *)
Theorem X19_storey_index (storeys : list IfcBuildingStorey) :
  let index := build_storey_elevations storeys in
  NoDup (map fst index) /\
  (forall k v,
     In (k, v) index ->
     exists storey,
       In storey storeys /\ storey_step_id storey = k /\ Elevation storey = Some v) /\
  (forall l1 storey l2 v,
     storeys = (l1 ++ storey :: l2)%list ->
     Elevation storey = Some v ->
     (forall s, In s l2 -> storey_step_id s = storey_step_id storey ->
                Elevation s = None) ->
     In (storey_step_id storey, v) index /\
     forall v', In (storey_step_id storey, v') index -> v' = v).
Proof.
  cbv zeta. unfold build_storey_elevations.
  destruct (storey_index_fold storeys []) as (H1 & H2 & _). cbv zeta in *.
  assert (Hnd : NoDup (map fst (build_storey_elevations storeys)))
    by (apply H1; constructor).
  unfold build_storey_elevations in Hnd.
  split; [exact Hnd|]. split.
  - intros k v Hin. destruct (H2 k v Hin) as [[]|H]; exact H.
  - intros l1 storey l2 v -> He Hlast.
    assert (Hin : In (storey_step_id storey, v)
                    (fold_left
                       (fun storey_elevations storey0 =>
                          match Elevation storey0 with
                          | Some elevation =>
                              set_elevation storey_elevations
                                (storey_step_id storey0) elevation
                          | None => storey_elevations
                          end) (l1 ++ storey :: l2)%list [])).
    { rewrite fold_left_app. cbn [fold_left]. rewrite He.
      destruct (storey_index_fold l2
                  (set_elevation
                     (fold_left
                        (fun storey_elevations storey0 =>
                           match Elevation storey0 with
                           | Some elevation =>
                               set_elevation storey_elevations
                                 (storey_step_id storey0) elevation
                           | None => storey_elevations
                           end) l1 [])
                     (storey_step_id storey) v)) as (_ & _ & H3).
      cbv zeta in H3. apply H3; [apply set_elevation_new|exact Hlast]. }
    split; [exact Hin|].
    intros v' Hin'. exact (keys_unique _ _ _ _ Hnd Hin' Hin).
Qed.

(** ** Spaces without a name *)

Lemma lower_plain (s : string) : plain s = true -> lower s = s.
Proof.
  induction s as [|c t IH]; cbn [plain lower]; [reflexivity|].
  intros H. apply andb_true_iff in H. destruct H as [Hc Ht].
  rewrite (IH Ht). f_equal.
  unfold lower_char. apply N.ltb_lt in Hc.
  destruct (N.leb_spec 65 (N_of_ascii c)); [lia|].
  destruct (N.leb_spec 192 (N_of_ascii c)); [lia|]. reflexivity.
Qed.

Lemma contains_plain (a : ascii) (t s : string) :
  letter a = true -> plain s = true -> contains (String a t) s = false.
Proof.
  intros Ha. induction s as [|c s IH]; cbn [plain contains String.prefix];
    [reflexivity|].
  intros H. apply andb_true_iff in H. destruct H as [Hc Hs].
  rewrite (IH Hs). destruct (ascii_dec a c) as [->|_]; [|reflexivity].
  unfold letter in Ha. apply andb_true_iff in Ha. destruct Ha as [Ha _].
  apply N.leb_le in Ha. apply N.ltb_lt in Hc. lia.
Qed.

Lemma uint_plain (d : Decimal.uint) : plain (NilEmpty.string_of_uint d) = true.
Proof. induction d; cbn; auto. Qed.

Lemma int_str_plain (z : Z) : plain (int_str z) = true.
Proof.
  unfold int_str. destruct (Z.to_int z) as [d|d]; cbn [NilZero.string_of_int].
  - destruct d; cbn [NilZero.string_of_uint]; try reflexivity; apply (uint_plain).
  - cbn [plain]. destruct d; cbn [NilZero.string_of_uint]; try reflexivity; apply (uint_plain).
Qed.

Lemma contains_skip (a c : ascii) (t s : string) :
  Ascii.eqb a c = false ->
  contains (String a t) (String c s) = contains (String a t) s.
Proof.
  intros H. cbn [contains String.prefix].
  destruct (ascii_dec a c) as [->|_]; [|reflexivity].
  rewrite Ascii.eqb_refl in H. discriminate.
Qed.

Lemma contains_skip2 (a b c d : ascii) (t s : string) :
  Ascii.eqb b d = false ->
  contains (String a (String b t)) (String c (String d s))
  = contains (String a (String b t)) (String d s).
Proof.
  intros H.
  change (contains (String a (String b t)) (String c (String d s)))
    with (String.prefix (String a (String b t)) (String c (String d s))
          || contains (String a (String b t)) (String d s)).
  cbn [String.prefix].
  destruct (ascii_dec a c); [|reflexivity].
  destruct (ascii_dec b d) as [->|_]; [|reflexivity].
  rewrite Ascii.eqb_refl in H. discriminate.
Qed.

Lemma label_not_residential (z : Z) :
  name_is_residential ("Space #" ++ int_str z) = false.
Proof.
  unfold name_is_residential, residential_terms.
  pose proof (int_str_plain z) as Hp.
  change (lower ("Space #" ++ int_str z)) with ("space #" ++ lower (int_str z)).
  rewrite (lower_plain _ Hp).
  cbn [existsb append].
  rewrite !contains_skip by reflexivity.
  rewrite contains_skip2 by reflexivity.
  rewrite !contains_skip by reflexivity.
  rewrite (contains_plain "r" "esidential" _ eq_refl Hp),
    (contains_plain "d" "welling" _ eq_refl Hp),
    (contains_plain "a" "partment" _ eq_refl Hp),
    (contains_plain "b" "edroom" _ eq_refl Hp),
    (contains_plain "f" "amily" _ eq_refl Hp).
  reflexivity.
Qed.

(** X20: a space whose Name is missing or empty is classified from its
    property groups alone: its generated label "Space #<id>" never matches
    a residential term, so it is Residential exactly when the text of one
    of its groups contains "residential" or "dwelling". *)
Theorem X20_unnamed_space_classified_by_groups (space : IfcSpace) :
  Name space = None \/ Name space = Some "" ->
  (space_use_type space = "Residential" <->
   exists group,
     In group (get_psets space) /\
     (contains "residential" (lower (str (PDict (snd group)))) = true \/
      contains "dwelling" (lower (str (PDict (snd group)))) = true)).
Proof.
  intros Hname.
  assert (Hlabel : space_name_of space = "Space #" ++ int_str (space_step_id space))
    by (unfold space_name_of; destruct Hname as [-> | ->]; reflexivity).
  unfold space_use_type. rewrite classify_spec, Hlabel, label_not_residential, orb_false_r.
  split.
  - intros H. destruct (existsb mentions_residential (get_psets space)) eqn:E;
      [|discriminate].
    apply existsb_exists in E. destruct E as (g & Hin & Hg).
    exists g. split; [exact Hin|]. apply orb_true_iff. exact Hg.
  - intros (g & Hin & Hg).
    assert (E : existsb mentions_residential (get_psets space) = true).
    { apply existsb_exists. exists g. split; [exact Hin|].
      unfold mentions_residential. apply orb_true_iff. exact Hg. }
    rewrite E. reflexivity.
Qed.

(** ** Letter case of keys, order of spaces *)

Lemma discover_height_cons (group : string * dict) (rest : list (string * dict))
    (acc : option pynum) :
  discover_height (group :: rest) acc =
  discover_height rest
    match scan_properties (snd group) None with
    | Some h => Some h
    | None => acc
    end.
Proof.
  destruct group as [n props]. cbn [discover_height snd].
  destruct (contains "height" (lower (str (PDict props)))) eqn:Eg.
  - rewrite (scan_properties_acc props acc). reflexivity.
  - rewrite (guard_redundant _ Eg). reflexivity.
Qed.

Lemma scan_properties_case (props props' : dict) :
  Forall2 (fun kv kv' => lower (fst kv) = lower (fst kv') /\ snd kv = snd kv')
    props props' ->
  forall acc, scan_properties props acc = scan_properties props' acc.
Proof.
  induction 1 as [|[k v] [k' v'] props props' [Hk Hv] _ IH]; intros acc;
    cbn [scan_properties]; [reflexivity|].
  cbn [fst snd] in Hk, Hv. subst v'. rewrite Hk, IH. reflexivity.
Qed.

(** X4: the letter case of the keys does not matter to height discovery:
    two lists of property groups that hold the same values under keys that
    are equal once lowered give the same discovered height, whatever the
    names of the groups. *)
Theorem X4_key_case_is_irrelevant (psets psets' : list (string * dict)) :
  Forall2
    (fun group group' =>
       Forall2 (fun kv kv' => lower (fst kv) = lower (fst kv') /\ snd kv = snd kv')
         (snd group) (snd group'))
    psets psets' ->
  discover_height psets None = discover_height psets' None.
Proof.
  intros H. generalize (@None pynum) as acc.
  induction H as [|group group' psets psets' Hg _ IH]; intros acc; [reflexivity|].
  rewrite !discover_height_cons. unfold dict.
  rewrite (scan_properties_case _ _ Hg None). apply IH.
Qed.

Lemma count_status_perm (s : string) (rs rs' : list result_dict) :
  Permutation rs rs' -> count_status s rs = count_status s rs'.
Proof.
  unfold count_status.
  induction 1 as [|r rs rs' _ IH|r r' rs|rs rs1 rs' _ IH1 _ IH2]; cbn [filter].
  - reflexivity.
  - destruct (check_status r =? s); cbn [List.length]; congruence.
  - destruct (check_status r =? s), (check_status r' =? s); reflexivity.
  - congruence.
Qed.

(** X21: the verdict does not depend on the order in which the model lists
    its spaces: when a call returns, the call on a model with the same
    spaces in another order returns too, with the same space records in
    that other order and the same summary record. *)
Theorem X21_order_of_spaces_is_irrelevant (kwargs : dict) (model model' : ifc_file)
    (out : list result_dict) :
  Permutation (spaces_of model) (spaces_of model') ->
  returned kwargs model = Return out ->
  exists out',
    returned kwargs model' = Return out' /\
    Permutation (non_summary out) (non_summary out') /\
    last_record out' = last_record out.
Proof.
  intros Hperm Hout.
  assert (Hok : forallb (space_ok (residential_min kwargs) (commercial_min kwargs))
                  (spaces_of model') = true).
  { assert (H : exists o, returned kwargs model = Return o) by eauto.
    apply returned_ok in H. rewrite forallb_forall in H. apply forallb_forall.
    intros space Hin. apply H. apply (Permutation_in _ (Permutation_sym Hperm) Hin). }
  apply returned_ok in Hok. destruct Hok as [out' Hout'].
  exists out'. split; [exact Hout'|].
  pose proof (returned_records _ _ _ Hout) as Hrs.
  pose proof (returned_records _ _ _ Hout') as Hrs'.
  destruct (Permutation_Forall2 Hperm Hrs) as (rs2 & Hp2 & Hd2).
  rewrite (described_unique _ _ _ _ _ Hd2 Hrs') in Hp2.
  split; [exact Hp2|].
  destruct (spaces_of model) as [|space rest] eqn:E.
  - apply Permutation_nil in Hperm.
    rewrite returned_unfold, E in Hout. rewrite returned_unfold, Hperm in Hout'.
    injection Hout as <-. injection Hout' as <-. reflexivity.
  - assert (Hne : spaces_of model <> []) by (rewrite E; discriminate).
    assert (Hne' : spaces_of model' <> []).
    { intros E'. rewrite E' in Hperm. apply Permutation_sym, Permutation_nil in Hperm.
      discriminate. }
    assert (Hlen : List.length (spaces_of model') = List.length (spaces_of model))
      by (rewrite E; symmetry; apply Permutation_length, Hperm).
    destruct (returned_inv _ _ _ Hne Hout) as (rs & st & Hd & -> & Hpa & Hfa & Hwa).
    destruct (returned_inv _ _ _ Hne' Hout') as (rs' & st' & Hd' & -> & Hpb & Hfb & Hwb).
    destruct (described_non_summary _ _ _ _ _ Hd
                (summary_kind (List.length (spaces_of model)) st)) as [E1 ->].
    destruct (described_non_summary _ _ _ _ _ Hd'
                (summary_kind (List.length (spaces_of model')) st')) as [E2 ->].
    rewrite E1, E2 in Hp2.
    unfold summary_record.
    rewrite Hlen, Hpa, Hfa, Hwa, Hpb, Hfb, Hwb,
      (count_status_perm "pass" _ _ Hp2), (count_status_perm "fail" _ _ Hp2),
      (count_status_perm "warning" _ _ Hp2).
    reflexivity.
Qed.

End Properties.

(** ** The theorems at work on the sample models *)

Lemma C1_threshold_application_witness :
  returned [] (Samples.model [Samples.bedroom_2]) = Return Samples.out_bedroom_2 /\
  nth_error (spaces_of (Samples.model [Samples.bedroom_2])) 0 = Some Samples.bedroom_2 /\
  exists r,
    nth_error Samples.out_bedroom_2 0 = Some r /\
    check_status r = "fail" /\
    comment r =
      Some "Space height 2650mm is below required minimum 2700mm for Residential".
Proof.
  assert (H1 : returned [] (Samples.model [Samples.bedroom_2])
               = Return Samples.out_bedroom_2) by (vm_compute; reflexivity).
  assert (H2 : nth_error (spaces_of (Samples.model [Samples.bedroom_2])) 0
               = Some Samples.bedroom_2) by reflexivity.
  split; [exact H1|]. split; [exact H2|].
  destruct (C1_threshold_application _ _ _ _ _ H1 H2) as (_ & _ & r & Hr & Hm).
  change (discover_height (get_psets Samples.bedroom_2) None)
    with (Some (NumInt (F := no_float) 2650)) in Hm.
  destruct Hm as (_ & _ & Hint & _ & Hc).
  assert (Hfail : check_status r = "fail").
  { apply (Hint 2650%Z 2700%Z eq_refl eq_refl). lia. }
  exists r. split; [exact Hr|]. split; [exact Hfail|].
  destruct (Hc Hfail) as (shown & Hshown & Hcomment).
  vm_compute in Hshown. injection Hshown as <-.
  rewrite Hcomment. vm_compute. reflexivity.
Defined.

Lemma C5_counter_consistency_witness :
  spaces_of Samples.three_spaces <> [] /\
  returned [] Samples.three_spaces = Return Samples.out_three_spaces /\
  check_status (last_record Samples.out_three_spaces) = "fail" /\
  actual_value (last_record Samples.out_three_spaces) = "1 pass, 1 fail, 1 warning".
Proof.
  assert (H1 : spaces_of Samples.three_spaces <> []) by discriminate.
  assert (H2 : returned [] Samples.three_spaces = Return Samples.out_three_spaces)
    by (vm_compute; reflexivity).
  split; [exact H1|]. split; [exact H2|].
  destruct (C5_counter_consistency _ _ _ H1 H2) as (_ & Hfail & _ & Hactual).
  split.
  - apply Hfail. vm_compute. lia.
  - rewrite Hactual. vm_compute. reflexivity.
Defined.

Lemma C6_cardinality_witness :
  (exists r, returned [] (Samples.model []) = Return [r] /\ check_status r = "log") /\
  returned [] Samples.three_spaces = Return Samples.out_three_spaces /\
  List.length Samples.out_three_spaces = 4%nat /\
  element_type (last_record Samples.out_three_spaces) = "Summary".
Proof.
  split.
  - destruct (C6_cardinality [] (Samples.model [])) as [H _].
    destruct (H eq_refl) as (r & Hr & _ & Hs & _). exists r. split; assumption.
  - destruct (C6_cardinality [] Samples.three_spaces) as [_ H].
    assert (Hne : spaces_of Samples.three_spaces <> []) by discriminate.
    assert (Hout : returned [] Samples.three_spaces = Return Samples.out_three_spaces)
      by (vm_compute; reflexivity).
    split; [exact Hout|]. exact (H Hne _ Hout).
Defined.

Lemma C7_closed_vocabulary_witness :
  returned [] Samples.three_spaces = Return Samples.out_three_spaces /\
  Forall (fun r => In (check_status r) statuses) Samples.out_three_spaces /\
  Forall (fun r => element_type r = "IfcSpace") (non_summary Samples.out_three_spaces).
Proof.
  assert (H : returned [] Samples.three_spaces = Return Samples.out_three_spaces)
    by (vm_compute; reflexivity).
  split; [exact H|].
  destruct (C7_closed_vocabulary _ _ _ H) as (Hs & Hk & _).
  split; assumption.
Defined.

Lemma C4_classification_precedence_witness :
  name_is_residential (space_name_of Samples.flat) = false /\
  space_use_type Samples.flat = "Residential".
Proof.
  split; [vm_compute; reflexivity|].
  destruct (C4_classification_precedence Samples.flat) as (H & _).
  apply H.
  exists ("Pset_SpaceCommon", [("Dwelling Type", PStr "flat"); ("Height", PInt 2750)]).
  split; [left; reflexivity|]. right. vm_compute. reflexivity.
Defined.

Lemma C8_sloped_and_storeys_inert_witness :
  returned [("sloped_min_height", PInt 1500)]
    (Samples.model_with [Samples.storey (Some 0%Z)] [Samples.bedroom_2])
  = returned [("sloped_min_height", PStr "steep")]
      (Samples.model_with [Samples.storey (Some 3200%Z)] [Samples.bedroom_2]).
Proof.
  apply C8_sloped_and_storeys_inert.
  - intros k default Hk. cbn [dict_get].
    destruct (String.eqb_spec k "sloped_min_height") as [E|_];
      [contradiction|reflexivity].
  - reflexivity.
Defined.

Lemma C9_idempotent_witness :
  exists out,
    fst (twice [] Samples.three_spaces) = Return (out, out) /\
    snd (twice [] Samples.three_spaces) = Samples.three_spaces.
Proof.
  destruct (C9_idempotent [] Samples.three_spaces) as (_ & _ & Hm & _ & H).
  destruct H as [out Hout].
  - exists Samples.out_three_spaces. vm_compute. reflexivity.
  - exists out. split; [exact Hout|exact Hm].
Defined.

(** C3, the claim as stated fails: with the non-numeric override "abc" for
    the residential threshold, a residential space without height gets a
    record that differs from the one of a call without the override, and a
    residential space with a height makes the call raise where the call
    without the override returns. *)
Lemma C3_counterexample :
  as_number (F := no_float) (PStr "abc") = None /\
  returned Samples.abc_residential (Samples.model [Samples.bedroom_1])
    <> returned [] (Samples.model [Samples.bedroom_1]) /\
  returned Samples.abc_residential (Samples.model [Samples.bedroom_2]) = Raise TypeError /\
  returned [] (Samples.model [Samples.bedroom_2]) = Return Samples.out_bedroom_2.
Proof.
  split; [reflexivity|]. split; [vm_compute; discriminate|].
  split; vm_compute; reflexivity.
Qed.

Lemma C3_overrides_used_as_given_witness :
  (exists e,
     returned Samples.abc_residential (Samples.model [Samples.bedroom_2]) = Raise e) /\
  returned [("sloped_min_height", PStr "abc")] (Samples.model [Samples.bedroom_2])
  = returned [] (Samples.model [Samples.bedroom_2]).
Proof.
  destruct (C3_overrides_used_as_given Samples.abc_residential
              (Samples.model [Samples.bedroom_2])) as (_ & _ & _ & _ & _ & _ & H).
  destruct (C3_overrides_used_as_given [] (Samples.model [Samples.bedroom_2]))
    as (_ & _ & _ & Hs & _).
  split; [|apply Hs].
  apply (H Samples.bedroom_2 (NumInt 2650)).
  - left. reflexivity.
  - reflexivity.
  - reflexivity.
Defined.

(** C10, the claim as stated fails: against the positive threshold 1 the
    boolean height True is not below the threshold, the record passes. *)
Lemma C10_counterexample :
  (0 < 1)%Z /\
  discover_height (get_psets Samples.flagged) None = Some (NumInt (Z.b2z true)) /\
  exists r s,
    returned [("commercial_min_height", PInt 1)] (Samples.model [Samples.flagged])
    = Return [r; s] /\
    required_value r = ">= 1mm (Commercial)" /\
    actual_value r = "1mm" /\
    check_status r = "pass".
Proof.
  split; [lia|]. split; [reflexivity|].
  eexists. eexists. split; [vm_compute; reflexivity|]. repeat split.
Qed.

Lemma C10_boolean_height_witness :
  returned [] (Samples.model [Samples.flagged]) = Return Samples.out_flagged /\
  exists r,
    nth_error Samples.out_flagged 0 = Some r /\
    actual_value r = "1mm" /\
    check_status r = "fail".
Proof.
  assert (H1 : returned [] (Samples.model [Samples.flagged]) = Return Samples.out_flagged)
    by (vm_compute; reflexivity).
  split; [exact H1|].
  destruct (C10_boolean_height [] (Samples.model [Samples.flagged]) Samples.out_flagged
              0 Samples.flagged [] [] "Pset_SpaceCommon" "HasHeight" [] [] true H1)
    as (_ & r & Hr & _ & Ha & Ht).
  - reflexivity.
  - reflexivity.
  - constructor.
  - vm_compute. reflexivity.
  - reflexivity.
  - exists r. split; [exact Hr|]. split; [exact Ha|].
    destruct (Ht 2800%Z) as (_ & _ & H & _); [reflexivity|].
    apply H. lia.
Defined.

(** ** The example scenarios of the specification *)

Example scenario_office_without_height :
  exists r s,
    returned [] (Samples.model [Samples.office_101]) = Return [r; s] /\
    check_status r = "warning" /\
    actual_value r = "Height not specified" /\
    required_value r = ">= 2800mm (Commercial)".
Proof. eexists. eexists. split; [vm_compute; reflexivity|]. repeat split. Qed.

Example scenario_bedroom_too_low :
  returned [] (Samples.model [Samples.bedroom_2]) = Return Samples.out_bedroom_2.
Proof. vm_compute. reflexivity. Qed.

Example scenario_dwelling_high_enough :
  exists r s,
    returned [] (Samples.model [Samples.flat]) = Return [r; s] /\
    element_name r = "Space #12" /\
    check_status r = "pass" /\
    required_value r = ">= 2700mm (Residential)" /\
    comment r = None.
Proof. eexists. eexists. split; [vm_compute; reflexivity|]. repeat split. Qed.

Example scenario_no_space :
  returned [] (Samples.model []) = Return [no_spaces_record].
Proof. reflexivity. Qed.

Example scenario_two_pass_one_fail :
  exists r1 r2 r3 s,
    returned []
      (Samples.model [Samples.flat; Samples.two_heights; Samples.bedroom_2])
    = Return [r1; r2; r3; s] /\
    actual_value s = "2 pass, 1 fail, 0 warning" /\
    check_status s = "fail".
Proof.
  eexists. eexists. eexists. eexists.
  split; [vm_compute; reflexivity|]. repeat split.
Qed.

(** ** Further properties at work on the sample models *)

Lemma X1_records_follow_spaces_witness :
  returned [] (Samples.model [Samples.flat; Samples.office_101])
  = Return Samples.out_flat_office /\
  exists r,
    nth_error Samples.out_flat_office 0 = Some r /\
    element_id r = Some "0BTBFw6f90Nfh9rP1dlXr2" /\
    element_name r = "Space #12".
Proof.
  assert (H1 : returned [] (Samples.model [Samples.flat; Samples.office_101])
               = Return Samples.out_flat_office) by (vm_compute; reflexivity).
  split; [exact H1|].
  destruct (X1_records_follow_spaces _ _ _ 0 Samples.flat H1 eq_refl)
    as (r & Hr & Hid & _ & _ & _ & Hlabel).
  exists r. split; [exact Hr|]. split; [exact Hid|].
  rewrite Hlabel by (left; reflexivity). reflexivity.
Defined.

Lemma X2_warning_iff_no_usable_key_witness :
  returned [] (Samples.model [Samples.flat; Samples.office_101])
  = Return Samples.out_flat_office /\
  exists r, nth_error Samples.out_flat_office 1 = Some r /\ check_status r = "warning".
Proof.
  assert (H1 : returned [] (Samples.model [Samples.flat; Samples.office_101])
               = Return Samples.out_flat_office) by (vm_compute; reflexivity).
  split; [exact H1|].
  destruct (X2_warning_iff_no_usable_key _ _ _ 1 Samples.office_101 H1 eq_refl)
    as (r & Hr & Hw).
  exists r. split; [exact Hr|]. apply Hw. intros group k v [].
Defined.

Lemma X5_actual_value_of_int_height_witness :
  returned [] (Samples.model [Samples.bedroom_2]) = Return Samples.out_bedroom_2 /\
  exists r, nth_error Samples.out_bedroom_2 0 = Some r /\ actual_value r = "2650mm".
Proof.
  assert (H1 : returned [] (Samples.model [Samples.bedroom_2])
               = Return Samples.out_bedroom_2) by (vm_compute; reflexivity).
  split; [exact H1|].
  destruct (X5_actual_value_of_int_height _ _ _ 0 Samples.bedroom_2 2650%Z H1
              eq_refl eq_refl) as (r & Hr & Ha & _).
  - cbn. lia.
  - exists r. split; [exact Hr|exact Ha].
Defined.

Lemma X6_first_failure_is_raised_witness :
  printable Samples.abc_residential
    (Samples.model [Samples.office_101; Samples.bedroom_2; Samples.hall]) = true /\
  returned Samples.abc_residential
    (Samples.model [Samples.office_101; Samples.bedroom_2; Samples.hall])
  = Raise TypeError.
Proof.
  assert (Hp : printable Samples.abc_residential
                 (Samples.model [Samples.office_101; Samples.bedroom_2; Samples.hall])
               = true) by (vm_compute; reflexivity).
  split; [exact Hp|].
  apply (X6_first_failure_is_raised _ _ TypeError Hp).
  exists [Samples.office_101], Samples.bedroom_2, [Samples.hall].
  split; [reflexivity|]. split; vm_compute; reflexivity.
Defined.

Lemma X7_causes_of_exceptions_witness :
  returned [] (Samples.model [Samples.office_101; Samples.hall]) = Raise OverflowError /\
  exists space h,
    In space [Samples.office_101; Samples.hall] /\
    discover_height (get_psets space) None = Some h.
Proof.
  assert (H1 : returned [] (Samples.model [Samples.office_101; Samples.hall])
               = Raise OverflowError) by (vm_compute; reflexivity).
  split; [exact H1|].
  assert (Hp : printable [] (Samples.model [Samples.office_101; Samples.hall]) = true)
    by (vm_compute; reflexivity).
  destruct (X7_causes_of_exceptions _ _ _ Hp H1) as [(space & h & Hin & Hh & _) _].
  exists space, h. split; [exact Hin|exact Hh].
Defined.

Lemma X8_no_height_never_raises_witness :
  exists out,
    returned Samples.abc_residential (Samples.model [Samples.office_101; Samples.bedroom_1])
    = Return out /\
    check_status (last_record out) = "pass" /\
    actual_value (last_record out) = "0 pass, 0 fail, 2 warning".
Proof.
  destruct (X8_no_height_never_raises Samples.abc_residential
              (Samples.model [Samples.office_101; Samples.bedroom_1]))
    as (out & Hout & _ & Hs & Ha).
  - vm_compute. reflexivity.
  - discriminate.
  - intros space [<-|[<-|[]]]; reflexivity.
  - exists out. split; [exact Hout|]. split; [exact Hs|exact Ha].
Defined.

Lemma X9_returns_iff_heights_convertible_witness :
  (exists out, returned [] Samples.three_spaces = Return out) /\
  ~ (exists out, returned [] (Samples.model [Samples.hall]) = Return out).
Proof.
  split.
  - apply (X9_returns_iff_heights_convertible [] Samples.three_spaces);
      [vm_compute; reflexivity|discriminate|discriminate|].
    intros space z [<-|[<-|[<-|[]]]] Hh; vm_compute in Hh;
      try discriminate; injection Hh as <-; cbn; lia.
  - intros H.
    assert (HR : as_number (residential_min (F := no_float) []) <> None) by discriminate.
    assert (HC : as_number (commercial_min (F := no_float) []) <> None) by discriminate.
    assert (Hp : printable [] (Samples.model [Samples.hall]) = true)
      by (vm_compute; reflexivity).
    pose proof (proj1 (X9_returns_iff_heights_convertible []
                         (Samples.model [Samples.hall]) Hp HR HC) H
                  Samples.hall (2 ^ 1024)%Z (or_introl eq_refl) eq_refl) as Hb.
    clear H. rename Hb into H.
    assert (Hlt : (2 ^ 970 < 2 ^ 1024)%Z) by (apply Z.pow_lt_mono_r; lia).
    assert (Hpos : (0 < 2 ^ 970)%Z) by (apply Z.pow_pos_nonneg; lia).
    rewrite Z.abs_eq in H by lia. lia.
Defined.

Lemma X10_records_compose_witness :
  exists out,
    returned [] Samples.three_spaces = Return out /\
    non_summary out
    = (non_summary Samples.out_bedroom_2 ++ non_summary Samples.out_flat_office)%list.
Proof.
  apply (X10_records_compose [] (Samples.model [Samples.bedroom_2])
           (Samples.model [Samples.flat; Samples.office_101]) Samples.three_spaces).
  - reflexivity.
  - vm_compute. reflexivity.
  - vm_compute. reflexivity.
Defined.

Lemma X11_raise_is_kept_witness :
  returned Samples.abc_residential (Samples.model [Samples.bedroom_2; Samples.office_101])
  = Raise TypeError.
Proof.
  apply (X11_raise_is_kept Samples.abc_residential (Samples.model [Samples.bedroom_2])
           (Samples.model [Samples.bedroom_2; Samples.office_101]) [Samples.office_101]).
  - vm_compute. reflexivity.
  - reflexivity.
Defined.

Lemma X12_other_options_ignored_witness :
  returned [("verbose", PBool true)] Samples.three_spaces = returned [] Samples.three_spaces.
Proof. apply X12_other_options_ignored; discriminate. Defined.

Lemma X13_threshold_of_absent_use_type_witness :
  returned Samples.abc_residential (Samples.model [Samples.two_heights])
  = returned [] (Samples.model [Samples.two_heights]).
Proof.
  destruct (X13_threshold_of_absent_use_type Samples.abc_residential []
              (Samples.model [Samples.two_heights])) as [H _].
  apply H.
  - intros space [<-|[]]. vm_compute. reflexivity.
  - reflexivity.
Defined.

Lemma X14_keyword_in_key_or_value_witness :
  name_is_residential (space_name_of Samples.unit_4) = false /\
  space_use_type Samples.unit_4 = "Residential".
Proof.
  split; [vm_compute; reflexivity|].
  apply (X14_keyword_in_key_or_value PNone PNone Samples.unit_4
           ("Pset_SpaceOccupancy", [("Usage", PStr "Private DWELLING")])
           "Usage" "dwelling" (PStr "Private DWELLING")).
  - left. reflexivity.
  - left. reflexivity.
  - right. reflexivity.
  - right. exists "Private DWELLING". split; [reflexivity|vm_compute; reflexivity].
Defined.

Lemma X15_thresholds_monotone_witness :
  returned [] Samples.three_spaces = Return Samples.out_three_spaces /\
  returned [("residential_min_height", PInt 3000); ("commercial_min_height", PInt 3000)]
    Samples.three_spaces = Return Samples.out_three_spaces_3000 /\
  (count_status "fail" (non_summary Samples.out_three_spaces)
   <= count_status "fail" (non_summary Samples.out_three_spaces_3000))%nat.
Proof.
  assert (H1 : returned [] Samples.three_spaces = Return Samples.out_three_spaces)
    by (vm_compute; reflexivity).
  assert (H2 : returned [("residential_min_height", PInt 3000);
                         ("commercial_min_height", PInt 3000)] Samples.three_spaces
               = Return Samples.out_three_spaces_3000) by (vm_compute; reflexivity).
  split; [exact H1|]. split; [exact H2|].
  refine (proj1 (proj2 (X15_thresholds_monotone []
                          [("residential_min_height", PInt 3000);
                           ("commercial_min_height", PInt 3000)]
                          Samples.three_spaces _ _ 2700 2800 3000 3000
                          eq_refl eq_refl eq_refl eq_refl _ _ _ H1 H2))).
  - lia.
  - lia.
  - intros space [z|x] _ _; [exists z; reflexivity|destruct x].
Defined.

Lemma X16_log_iff_no_space_witness :
  exists r, In r [no_spaces_record] /\ check_status r = "log".
Proof.
  apply (X16_log_iff_no_space [] (Samples.model []) [no_spaces_record]); reflexivity.
Defined.

Lemma X17_summary_texts_witness :
  comment (last_record Samples.out_three_spaces)
  = Some "Checked 3 space(s): 1 compliant, 1 non-compliant, 1 with missing data" /\
  required_value (last_record Samples.out_three_spaces)
  = "All 3 spaces meet minimum height requirements".
Proof.
  assert (H1 : spaces_of Samples.three_spaces <> []) by discriminate.
  assert (H2 : returned [] Samples.three_spaces = Return Samples.out_three_spaces)
    by (vm_compute; reflexivity).
  destruct (X17_summary_texts _ _ _ H1 H2) as (_ & _ & _ & _ & _ & Hr & Hc).
  split; [rewrite Hc|rewrite Hr]; vm_compute; reflexivity.
Defined.

Lemma X18_warnings_count_missing_heights_witness :
  count_status "warning" (non_summary Samples.out_three_spaces) = 1%nat.
Proof.
  assert (H : returned [] Samples.three_spaces = Return Samples.out_three_spaces)
    by (vm_compute; reflexivity).
  destruct (X18_warnings_count_missing_heights _ _ _ H) as [Hw _].
  rewrite Hw. vm_compute. reflexivity.
Defined.

Lemma X19_storey_index_witness :
  In (40%Z, PInt 3200) (build_storey_elevations Samples.two_storeys) /\
  forall v, In (40%Z, v) (build_storey_elevations Samples.two_storeys) -> v = PInt 3200.
Proof.
  destruct (X19_storey_index Samples.two_storeys) as (_ & _ & H).
  apply (H [Samples.storey (Some 0%Z)] (Samples.storey (Some 3200%Z))
           [Samples.storey None] (PInt 3200)).
  - reflexivity.
  - reflexivity.
  - intros s [<-|[]] _. reflexivity.
Defined.

Lemma X20_unnamed_space_classified_by_groups_witness :
  Name Samples.flat = None /\ space_use_type Samples.flat = "Residential".
Proof.
  split; [reflexivity|].
  apply (X20_unnamed_space_classified_by_groups Samples.flat); [left; reflexivity|].
  exists ("Pset_SpaceCommon", [("Dwelling Type", PStr "flat"); ("Height", PInt 2750)]).
  split; [left; reflexivity|]. right. vm_compute. reflexivity.
Defined.

Lemma X4_key_case_is_irrelevant_witness :
  discover_height (F := no_float) [("Pset_A", [("CEILING HEIGHT", PInt 2650)])] None
  = discover_height [("Pset_B", [("Ceiling Height", PInt 2650)])] None.
Proof.
  apply X4_key_case_is_irrelevant.
  constructor; [|constructor]. constructor; [|constructor]. split; reflexivity.
Defined.

Lemma X21_order_of_spaces_is_irrelevant_witness :
  exists out',
    returned [] (Samples.model [Samples.office_101; Samples.flat; Samples.bedroom_2])
    = Return out' /\
    actual_value (last_record out') = "1 pass, 1 fail, 1 warning".
Proof.
  destruct (X21_order_of_spaces_is_irrelevant [] Samples.three_spaces
              (Samples.model [Samples.office_101; Samples.flat; Samples.bedroom_2])
              Samples.out_three_spaces) as (out' & Hout' & _ & Hlast).
  - change (Permutation [Samples.bedroom_2; Samples.flat; Samples.office_101]
              [Samples.office_101; Samples.flat; Samples.bedroom_2]).
    apply Permutation_sym.
    apply (Permutation_trans
             (l' := [Samples.flat; Samples.office_101; Samples.bedroom_2])).
    + apply perm_swap.
    + apply (Permutation_trans
               (l' := [Samples.flat; Samples.bedroom_2; Samples.office_101])).
      * apply perm_skip, perm_swap.
      * apply perm_swap.
  - vm_compute. reflexivity.
  - exists out'. split; [exact Hout'|]. rewrite Hlast. vm_compute. reflexivity.
Defined.
